(** * Kanti Go backend: capture pipeline, capture store, event bus,
      leaf-certificate cache and control plane.

    A shallow embedding of [pkg/models/types.go],
    [internal/proxy/proxy.go], [internal/proxy/certificate.go] and
    [internal/ipc/server.go], with the properties of the written
    specification stated and settled against it.

    Conventions.
    - Go [int]/[int64] values are [Z]; the ring indices of the capture store
      stay below [MaxCachedRequests] and are [nat].
    - Go [string] is [string] (a sequence of bytes); [[]byte] is
      [list byte].
    - Library code enters as a parameter where its result depends on data
      the library holds: the gzip and brotli decoders, and the Unicode case
      tables behind [strings.ToLower] on a string that is not ASCII.
    - Go maps are stdpp [gmap]s. Where the source ranges over a map, the
      iteration order (unspecified in Go) is an explicit argument.
    - Locks are not modelled: every function below is the body of a critical
      section and is run to completion. *)

From Stdlib Require Import ZArith Ascii String.
From Stdlib.Strings Require Import Byte.
From stdpp Require Import base numbers option list strings pretty gmap.

Local Open Scope Z_scope.

(** ** Go's [strings] package, on byte strings *)

Module GoStrings.

Definition lowerByte (c : ascii) : ascii :=
  let n := nat_of_ascii c in
  if ((65 <=? n) && (n <=? 90))%nat then ascii_of_nat (n + 32) else c.

Definition upperByte (c : ascii) : ascii :=
  let n := nat_of_ascii c in
  if ((97 <=? n) && (n <=? 122))%nat then ascii_of_nat (n - 32) else c.

(** No byte of [s] is [utf8.RuneSelf] (0x80) or above. *)
Fixpoint isASCII (s : string) : bool :=
  match s with
  | EmptyString => true
  | String c t => (nat_of_ascii c <? 128)%nat && isASCII t
  end.

(** The ASCII branch of [strings.ToLower]: [c += 'a' - 'A'] on the bytes
    from [A] to [Z]. *)
Fixpoint lowerASCII (s : string) : string :=
  match s with
  | EmptyString => EmptyString
  | String c t => String (lowerByte c) (lowerASCII t)
  end.

Section Unicode.

(** [strings.Map(unicode.ToLower, s)]: the lower-case mapping of the Unicode
    tables, rune by rune over the UTF-8 decoding of [s]. It sends some runes
    outside ASCII to ASCII letters (U+0130 to [i], U+212A to [k]). *)
Variable mapToLower : string -> string.

(** [strings.ToLower]: a string of ASCII bytes is lowered byte by byte (and
    returned as it is when it has no upper-case letter, which the byte-wise
    lowering leaves unchanged too); any other string goes through the
    Unicode mapping. *)
Definition ToLower (s : string) : string :=
  if isASCII s then lowerASCII s else mapToLower s.

End Unicode.

(** [len(s) >= len(prefix) && s[:len(prefix)] == prefix] *)
Definition HasPrefix (s prefix : string) : bool :=
  (String.length prefix <=? String.length s)%nat
  && String.eqb (substring 0 (String.length prefix) s) prefix.

(** [len(s) >= len(suffix) && s[len(s)-len(suffix):] == suffix] *)
Definition HasSuffix (s suffix : string) : bool :=
  (String.length suffix <=? String.length s)%nat
  && String.eqb
       (substring (String.length s - String.length suffix)
                  (String.length suffix) s)
       suffix.

(** [strings.Contains]: [substr] occurs at some offset of [s]. *)
Fixpoint Contains (s substr : string) : bool :=
  HasPrefix s substr
  || match s with
     | EmptyString => false
     | String _ t => Contains t substr
     end.

(** The slice expression [s[n:]], for [n <= len(s)]. *)
Definition sliceFrom (n : nat) (s : string) : string :=
  substring n (String.length s - n) s.

End GoStrings.

(** ** [net/http] headers *)

Module Http.

(** [Http.Header] is [map[string][]string], keyed by canonical names. *)
Abbreviation Header := (gmap string (list string)).

(** [textproto.validHeaderFieldByte]: the token characters of RFC 7230. *)
Definition validHeaderFieldByte (c : ascii) : bool :=
  let n := nat_of_ascii c in
  ((n =? 33) || ((35 <=? n) && (n <=? 39)) || (n =? 42) || (n =? 43)
   || (n =? 45) || (n =? 46) || ((48 <=? n) && (n <=? 57))
   || ((65 <=? n) && (n <=? 90)) || ((94 <=? n) && (n <=? 122))
   || (n =? 124) || (n =? 126))%nat.

Fixpoint allValid (s : string) : bool :=
  match s with
  | EmptyString => true
  | String c t => validHeaderFieldByte c && allValid t
  end.

(** First letter and every letter after a dash upper case, the rest lower
    case. *)
Fixpoint canonicalize (upper : bool) (s : string) : string :=
  match s with
  | EmptyString => EmptyString
  | String c t =>
      let c' := if upper then GoStrings.upperByte c else GoStrings.lowerByte c in
      String c' (canonicalize (Ascii.eqb c' "-") t)
  end.

(** [textproto.CanonicalMIMEHeaderKey]: a name with a byte that is not a
    token character is returned unchanged. *)
Definition CanonicalMIMEHeaderKey (s : string) : string :=
  if allValid s then canonicalize true s else s.

Definition Get (h : Header) (key : string) : string :=
  match h !! CanonicalMIMEHeaderKey key with
  | Some (v :: _) => v
  | _ => EmptyString
  end.

Definition Set_ (h : Header) (key value : string) : Header :=
  <[CanonicalMIMEHeaderKey key := [value]]> h.

Definition Del (h : Header) (key : string) : Header :=
  delete (CanonicalMIMEHeaderKey key) h.

(** What [io.ReadAll] finds in a body: the bytes the peer sends, and whether
    the read ends in an error other than end of file. *)
Record Body := mkBody { content : list byte; readFails : bool }.

(** [bytes.NewBuffer(b)] wrapped in [io.NopCloser]. *)
Definition bufferOf (b : list byte) : Body :=
  {| content := b; readFails := false |}.

(** The first [n] bytes of [l]: what a reader limited to [n] bytes
    delivers. *)
Fixpoint limit (n : N) (l : list byte) : list byte :=
  match l with
  | [] => []
  | x :: t => if (n =? 0)%N then [] else x :: limit (N.pred n) t
  end.

(** [io.ReadAll(io.LimitReader(body, n))]: [None] is a read error. *)
Definition ReadAllLimited (n : N) (b : Body) : option (list byte) :=
  if readFails b then None else Some (limit n (content b)).

Record Request := mkRequest {
  Method : string;
  Host : string;
  URLPath : string;
  RawQuery : string;
  ReqHeader : Header;
  TLS : bool;
  ReqBody : option Body
}.

Record Response := mkResponse {
  StatusCode : Z;
  RespHeader : Header;
  RespBody : option Body
}.

End Http.

(** ** [pkg/models] *)

Module Models.

(** [type RequestDetails struct]: a captured request or exchange.
    [Timestamp] ([time.Time]) is the instant in milliseconds, the unit of
    [ResponseTime]. A field a struct literal leaves out has Go's zero
    value. *)
Record RequestDetails := mkDetails {
  ID : Z;
  Host : string;
  Method : string;
  Path : string;
  Query : string;
  Headers : Http.Header;
  Timestamp : Z;
  ResponseLength : Z;
  Status : Z;
  ResponseTime : Z;
  Protocol : string;
  Body : string;
  ResponseBody : string;
  ResponseHeaders : Http.Header;
  Error : string
}.

(** [type ProxyConfig struct]. *)
Record ProxyConfig := mkConfig {
  Port : Z;
  SSLInterception : bool;
  CustomHeaders : gmap string string;
  SaveOnlyInScope : bool;
  InScope : list string;
  OutOfScope : list string;
  CertPath : string
}.

(** [type ProxyStatus struct]. Its field [Port] is [StatusPort] here:
    [Port] is the projection of [ProxyConfig]. *)
Record ProxyStatus := mkStatus {
  IsRunning : bool;
  StatusPort : Z;
  CertificatePath : string
}.

(** [interface{}], the type of [IPCEvent.Data]: a value with its dynamic
    type. The dynamic types are the ones the sources store in an event,
    [[]RequestDetails] in [handleBatchFlush], next to [nil], the zero
    value. *)
Inductive EventData :=
| NilData
| RequestDetailsSlice (records : list RequestDetails).

(** [type IPCEvent struct]. Its field [Type] is [Type_] here. The file
    declares [IPCMessage] and [IPCResponse] too, which no function below
    uses. *)
Record IPCEvent := mkEvent {
  Type_ : string;
  Data : EventData
}.

End Models.

(** ** [internal/proxy/proxy.go] *)

Module Proxy.
Import Models.

Definition MaxBodySize : N := 10 * 1024 * 1024.
Definition MaxCachedRequests : nat := 1000.
Definition BatchSize : nat := 50.

(** The zero value of [models.RequestDetails]: what [make] fills the ring
    with, and what a struct literal leaves in the fields it does not name. *)
Definition zeroDetails : RequestDetails :=
  {| ID := 0; Host := ""; Method := ""; Path := ""; Query := "";
     Headers := ∅; Timestamp := 0; ResponseLength := 0; Status := 0;
     ResponseTime := 0; Protocol := ""; Body := ""; ResponseBody := "";
     ResponseHeaders := ∅; Error := "" |}.

(** One call of the [onBatchFlush] callback: the request batch and the
    response batch handed over. *)
Definition FlushCall : Type := list RequestDetails * list RequestDetails.

(** The state of a [ProxyServer]. [listener] is the port the accept loop is
    bound to; [batchTimer] says whether the one-shot flush timer is armed;
    [onBatchFlush] says whether the callback slot is set (the call itself is
    returned to the caller as a [FlushCall]). The [onRequest] and
    [onResponse] slots are never set by the sources and are left out. *)
Record ProxyServer := mkProxyServer {
  config : ProxyConfig;
  listener : option Z;
  requestID : Z;
  reqCache : list RequestDetails;
  cacheHead : nat;
  cacheTail : nat;
  cacheCount : nat;
  reqBatch : list RequestDetails;
  respBatch : list RequestDetails;
  batchTimer : bool;
  onBatchFlush : bool;
  isRunning : bool
}.

Definition defaultConfig : ProxyConfig :=
  {| Port := 8080; SSLInterception := true; CustomHeaders := ∅;
     SaveOnlyInScope := false; InScope := []; OutOfScope := [];
     CertPath := "" |}.

(** [NewProxyServer], after the certificate manager has been created:
    [certPath] is its [GetCACertificatePath]. *)
Definition NewProxyServer (certPath : string) (cfg : option ProxyConfig)
  : ProxyServer :=
  let c := default defaultConfig cfg in
  {| config :=
       {| Port := Port c; SSLInterception := SSLInterception c;
          CustomHeaders := CustomHeaders c;
          SaveOnlyInScope := SaveOnlyInScope c; InScope := InScope c;
          OutOfScope := OutOfScope c; CertPath := certPath |};
     listener := None;
     requestID := 0;
     reqCache := replicate MaxCachedRequests zeroDetails;
     cacheHead := 0; cacheTail := 0; cacheCount := 0;
     reqBatch := []; respBatch := [];
     batchTimer := false; onBatchFlush := false; isRunning := false |}.

Definition SetOnBatchFlush (ps : ProxyServer) : ProxyServer :=
  {| config := config ps; listener := listener ps;
     requestID := requestID ps; reqCache := reqCache ps;
     cacheHead := cacheHead ps; cacheTail := cacheTail ps;
     cacheCount := cacheCount ps; reqBatch := reqBatch ps;
     respBatch := respBatch ps; batchTimer := batchTimer ps;
     onBatchFlush := true; isRunning := isRunning ps |}.

(** *** Scope *)

Definition matchesPattern (host pattern : string) : bool :=
  if String.eqb pattern host then true
  else if GoStrings.HasPrefix pattern "*." then
    let domain := GoStrings.sliceFrom 2 pattern in
    GoStrings.HasSuffix host domain || String.eqb host domain
  else false.

Definition shouldSave (cfg : ProxyConfig) (host : string) : bool :=
  if negb (SaveOnlyInScope cfg) then true
  else if existsb (matchesPattern host) (OutOfScope cfg) then false
  else if existsb (matchesPattern host) (InScope cfg) then true
  else false.

(** *** Header rewriting *)

Definition proxyHeaders : list string :=
  ["X-Forwarded-For"; "X-Forwarded-Host"; "X-Forwarded-Proto"; "X-Real-IP";
   "Via"; "Forwarded"; "Proxy-Connection"].

Definition setIfMissing (key value : string) (h : Http.Header) : Http.Header :=
  if String.eqb (Http.Get h key) "" then Http.Set_ h key value else h.

Definition sanitizeHeader (h : Http.Header) : Http.Header :=
  let h1 := foldl Http.Del h proxyHeaders in
  let h2 := setIfMissing "User-Agent"
    "Mozilla/5.0 (Windows NT 10.0; Win64; x64) AppleWebKit/537.36 (KHTML, like Gecko) Chrome/131.0.0.0 Safari/537.36"
    h1 in
  let h3 := setIfMissing "Accept"
    "text/html,application/xhtml+xml,application/xml;q=0.9,image/webp,*/*;q=0.8"
    h2 in
  let h4 := setIfMissing "Accept-Language" "en-US,en;q=0.9" h3 in
  setIfMissing "Accept-Encoding" "gzip, deflate, br" h4.

Definition withHeader (req : Http.Request) (h : Http.Header) : Http.Request :=
  {| Http.Method := Http.Method req; Http.Host := Http.Host req;
     Http.URLPath := Http.URLPath req; Http.RawQuery := Http.RawQuery req;
     Http.ReqHeader := h; Http.TLS := Http.TLS req;
     Http.ReqBody := Http.ReqBody req |}.

Definition sanitizeHeaders (req : Http.Request) : Http.Request :=
  withHeader req (sanitizeHeader (Http.ReqHeader req)).

(** [range ps.config.CustomHeaders] visits the entries in [order], an
    enumeration of the map that Go leaves unspecified. *)
Definition addCustomHeaders (order : list (string * string))
    (req : Http.Request) : Http.Request :=
  withHeader req
    (foldl (fun h kv => Http.Set_ h kv.1 kv.2) (Http.ReqHeader req) order).

(** *** Capture *)

Definition protocolOf (req : Http.Request) : string :=
  if Http.TLS req then "https" else "http".

Definition withReqBody (req : Http.Request) (b : option Http.Body)
  : Http.Request :=
  {| Http.Method := Http.Method req; Http.Host := Http.Host req;
     Http.URLPath := Http.URLPath req; Http.RawQuery := Http.RawQuery req;
     Http.ReqHeader := Http.ReqHeader req; Http.TLS := Http.TLS req;
     Http.ReqBody := b |}.

(** A body the capture has read from and not restored: nothing is left of
    what was read. *)
Definition drained (n : N) (b : Http.Body) : Http.Body :=
  {| Http.content := drop (length (Http.limit n (Http.content b)))
                          (Http.content b);
     Http.readFails := Http.readFails b |}.

(** [captureRequest]: the record, and the request with the body as the
    function leaves it for forwarding. The struct literal names the fields
    up to [Body]; the response fields and [Error] keep the zero value. *)
Definition captureRequest (req : Http.Request) (reqID startTime : Z)
  : RequestDetails * Http.Request :=
  let '(body, req') :=
    match Http.ReqBody req with
    | None => (EmptyString, req)
    | Some b =>
        match Http.ReadAllLimited MaxBodySize b with
        | Some bodyBytes =>
            if (0 <? length bodyBytes)%nat
            then (string_of_list_byte bodyBytes,
                  withReqBody req (Some (Http.bufferOf bodyBytes)))
            else (EmptyString, withReqBody req (Some (drained MaxBodySize b)))
        | None => (EmptyString, withReqBody req (Some (drained MaxBodySize b)))
        end
    end in
  ({| ID := reqID; Host := Http.Host req; Method := Http.Method req;
      Path := Http.URLPath req; Query := Http.RawQuery req;
      Headers := Http.ReqHeader req; Timestamp := startTime;
      ResponseLength := 0; Status := 0; ResponseTime := 0;
      Protocol := protocolOf req; Body := body; ResponseBody := "";
      ResponseHeaders := ∅; Error := "" |},
   req').

Section Decoders.

(** The Unicode branch of [strings.ToLower]. *)
Variable mapToLower : string -> string.

(** [compress/gzip] and [andybalholm/brotli], as functions from the
    compressed bytes to the decoded ones; [None] is a decoding error. *)
Variable gunzip : list byte -> option (list byte).
Variable unbrotli : list byte -> option (list byte).

Definition shouldCaptureBody (contentType : string) : bool :=
  if String.eqb contentType "" then true
  else
    let contentType := GoStrings.ToLower mapToLower contentType in
    existsb (GoStrings.Contains contentType)
      ["text/"; "application/json"; "application/xml";
       "application/javascript"; "application/x-www-form-urlencoded";
       "application/graphql"].

Definition decompressResponse (data : list byte) (encoding : string)
  : option (list byte) :=
  if String.eqb encoding "" then Some data
  else
    let encoding := GoStrings.ToLower mapToLower encoding in
    if GoStrings.Contains encoding "gzip" then gunzip data
    else if GoStrings.Contains encoding "br" then unbrotli data
    else if GoStrings.Contains encoding "deflate" then Some data
    else Some data.

Definition withRespBody (resp : Http.Response) (b : option Http.Body)
  : Http.Response :=
  {| Http.StatusCode := Http.StatusCode resp;
     Http.RespHeader := Http.RespHeader resp; Http.RespBody := b |}.

(** [captureResponse]: the record, and the response with the body as the
    function leaves it for the client. [now] is the clock at the call, in
    milliseconds like [startTime]. The struct literal names neither [Body]
    nor [Error], which keep the zero value. *)
Definition captureResponse (req : Http.Request) (resp : Http.Response)
    (reqID startTime now : Z) : RequestDetails * Http.Response :=
  let responseTime := now - startTime in
  let '(responseBody, contentLength, resp') :=
    match Http.RespBody resp with
    | None => (EmptyString, 0, resp)
    | Some b =>
        if shouldCaptureBody (Http.Get (Http.RespHeader resp) "Content-Type")
        then
          match Http.ReadAllLimited MaxBodySize b with
          | Some bodyBytes =>
              let responseBody :=
                match decompressResponse bodyBytes
                        (Http.Get (Http.RespHeader resp) "Content-Encoding")
                with
                | Some decompressed => string_of_list_byte decompressed
                | None => EmptyString
                end in
              (responseBody, Z.of_nat (length bodyBytes),
               withRespBody resp (Some (Http.bufferOf bodyBytes)))
          | None =>
              (EmptyString, 0, withRespBody resp (Some (drained MaxBodySize b)))
          end
        else (EmptyString, 0, resp)
    end in
  ({| ID := reqID; Host := Http.Host req; Method := Http.Method req;
      Path := Http.URLPath req; Query := Http.RawQuery req;
      Headers := Http.ReqHeader req; Timestamp := startTime;
      ResponseLength := contentLength; Status := Http.StatusCode resp;
      ResponseTime := responseTime; Protocol := protocolOf req; Body := "";
      ResponseBody := responseBody;
      ResponseHeaders := Http.RespHeader resp; Error := "" |},
   resp').

End Decoders.

(** *** Capture store: the ring *)

Definition setCache (ps : ProxyServer) (cache : list RequestDetails)
    (head tail count : nat) : ProxyServer :=
  {| config := config ps; listener := listener ps;
     requestID := requestID ps; reqCache := cache;
     cacheHead := head; cacheTail := tail; cacheCount := count;
     reqBatch := reqBatch ps; respBatch := respBatch ps;
     batchTimer := batchTimer ps; onBatchFlush := onBatchFlush ps;
     isRunning := isRunning ps |}.

(** [ps.reqCache[idx]]. Go panics on an index out of range; the invariant
    [cache_wf] below keeps every index the ring uses in range. *)
Definition slot (cache : list RequestDetails) (idx : nat) : RequestDetails :=
  default zeroDetails (cache !! idx).

Definition addToCache (req : RequestDetails) (ps : ProxyServer)
  : ProxyServer :=
  let cache := <[cacheTail ps := req]> (reqCache ps) in
  let tail := ((cacheTail ps + 1) mod MaxCachedRequests)%nat in
  if (cacheCount ps <? MaxCachedRequests)%nat
  then setCache ps cache (cacheHead ps) tail (cacheCount ps + 1)%nat
  else setCache ps cache
         ((cacheHead ps + 1) mod MaxCachedRequests)%nat tail (cacheCount ps).

(** The loop of [updateInCache] over the offsets [offs] still to visit. *)
Fixpoint updateLoop (resp : RequestDetails) (head : nat) (offs : list nat)
    (cache : list RequestDetails) : list RequestDetails :=
  match offs with
  | [] => cache
  | i :: rest =>
      let idx := ((head + i) mod MaxCachedRequests)%nat in
      if ID (slot cache idx) =? ID resp
      then <[idx := resp]> cache
      else updateLoop resp head rest cache
  end.

Definition updateInCache (resp : RequestDetails) (ps : ProxyServer)
  : ProxyServer :=
  setCache ps
    (updateLoop resp (cacheHead ps) (seq 0 (cacheCount ps)) (reqCache ps))
    (cacheHead ps) (cacheTail ps) (cacheCount ps).

(** [for i := ps.cacheCount - 1; i >= 0; i--]. *)
Definition GetRequests (ps : ProxyServer) : list RequestDetails :=
  (fun i => slot (reqCache ps) ((cacheHead ps + i) mod MaxCachedRequests)%nat)
    <$> reverse (seq 0 (cacheCount ps)).

Definition ClearRequests (ps : ProxyServer) : ProxyServer :=
  setCache ps (reqCache ps) 0%nat 0%nat 0%nat.

(** *** Batching *)

Definition setBatches (ps : ProxyServer) (reqs resps : list RequestDetails)
    (timer : bool) : ProxyServer :=
  {| config := config ps; listener := listener ps;
     requestID := requestID ps; reqCache := reqCache ps;
     cacheHead := cacheHead ps; cacheTail := cacheTail ps;
     cacheCount := cacheCount ps; reqBatch := reqs; respBatch := resps;
     batchTimer := timer; onBatchFlush := onBatchFlush ps;
     isRunning := isRunning ps |}.

Definition scheduleBatchFlush (ps : ProxyServer) : ProxyServer :=
  if batchTimer ps then ps
  else setBatches ps (reqBatch ps) (respBatch ps) true.

(** [flushBatches]: the new state and the callback call it makes, if any.
    The armed timer firing is a call of this function too. *)
Definition flushBatches (ps : ProxyServer) : ProxyServer * option FlushCall :=
  let reqs := reqBatch ps in
  let resps := respBatch ps in
  (setBatches ps [] [] false,
   if onBatchFlush ps
      && ((0 <? length reqs)%nat || (0 <? length resps)%nat)
   then Some (reqs, resps) else None).

Definition emitRequest (details : RequestDetails) (ps : ProxyServer)
  : ProxyServer * option FlushCall :=
  if String.eqb (Method details) "CONNECT" then (ps, None)
  else
    let ps1 := addToCache details ps in
    let ps2 := setBatches ps1 (reqBatch ps1 ++ [details]) (respBatch ps1)
                 (batchTimer ps1) in
    if (BatchSize <=? length (reqBatch ps2))%nat
    then flushBatches ps2
    else (scheduleBatchFlush ps2, None).

Definition emitResponse (details : RequestDetails) (ps : ProxyServer)
  : ProxyServer * option FlushCall :=
  if String.eqb (Method details) "CONNECT" then (ps, None)
  else
    let ps1 := updateInCache details ps in
    let ps2 := setBatches ps1 (reqBatch ps1) (respBatch ps1 ++ [details])
                 (batchTimer ps1) in
    if (BatchSize <=? length (respBatch ps2))%nat
    then flushBatches ps2
    else (scheduleBatchFlush ps2, None).

(** *** The goproxy handlers *)

(** [atomic.AddInt64] on the 64-bit counter. *)
Definition wrap64 (x : Z) : Z := (x + 2 ^ 63) mod 2 ^ 64 - 2 ^ 63.

Definition setRequestID (ps : ProxyServer) (id : Z) : ProxyServer :=
  {| config := config ps; listener := listener ps; requestID := id;
     reqCache := reqCache ps; cacheHead := cacheHead ps;
     cacheTail := cacheTail ps; cacheCount := cacheCount ps;
     reqBatch := reqBatch ps; respBatch := respBatch ps;
     batchTimer := batchTimer ps; onBatchFlush := onBatchFlush ps;
     isRunning := isRunning ps |}.

(** [ctx.UserData] as the request handler fills it. *)
Record UserData := mkUserData { startTime : Z; reqID : Z }.

(** What the response handler finds in [goproxy.ProxyCtx]. *)
Record ProxyCtx := mkCtx { Req : Http.Request; ctxUserData : option UserData }.

Record RequestOutcome := mkRequestOutcome {
  forwarded : Http.Request;
  userData : UserData;
  afterRequest : ProxyServer;
  requestFlush : option FlushCall
}.

(** The [OnRequest] handler. [now] is [time.Now()], [order] the enumeration
    of the custom headers. *)
Definition onRequestHandler (order : list (string * string)) (now : Z)
    (req : Http.Request) (ps : ProxyServer) : RequestOutcome :=
  let id := wrap64 (requestID ps + 1) in
  let ps1 := setRequestID ps id in
  let req1 := addCustomHeaders order (sanitizeHeaders req) in
  let '(details, req2) := captureRequest req1 id now in
  let '(ps2, call) :=
    if shouldSave (config ps1) (Host details)
    then emitRequest details ps1 else (ps1, None) in
  {| forwarded := req2; userData := {| startTime := now; reqID := id |};
     afterRequest := ps2; requestFlush := call |}.

Record ResponseOutcome := mkResponseOutcome {
  returned : option Http.Response;
  afterResponse : ProxyServer;
  responseFlush : option FlushCall
}.

Section Handlers.

Variable mapToLower : string -> string.
Variable gunzip : list byte -> option (list byte).
Variable unbrotli : list byte -> option (list byte).

(** The [OnResponse] handler. goproxy calls it with [resp = nil] when the
    round trip to the upstream failed. *)
Definition onResponseHandler (now : Z) (resp : option Http.Response)
    (ctx : ProxyCtx) (ps : ProxyServer) : ResponseOutcome :=
  match resp, ctxUserData ctx with
  | Some r, Some ud =>
      let '(details, r') :=
        captureResponse mapToLower gunzip unbrotli (Req ctx) r (reqID ud)
          (startTime ud) now in
      let '(ps', call) :=
        if shouldSave (config ps) (Host details)
        then emitResponse details ps else (ps, None) in
      {| returned := Some r'; afterResponse := ps'; responseFlush := call |}
  | _, _ => {| returned := resp; afterResponse := ps; responseFlush := None |}
  end.

End Handlers.

(** *** Lifecycle *)

Definition setRunning (ps : ProxyServer) (l : option Z) (running : bool)
  : ProxyServer :=
  {| config := config ps; listener := l; requestID := requestID ps;
     reqCache := reqCache ps; cacheHead := cacheHead ps;
     cacheTail := cacheTail ps; cacheCount := cacheCount ps;
     reqBatch := reqBatch ps; respBatch := respBatch ps;
     batchTimer := batchTimer ps; onBatchFlush := onBatchFlush ps;
     isRunning := running |}.

(** [Start]. [bind] is the outcome of [net.Listen]: [None] when the port is
    granted, the text of the operating system's error otherwise. The result
    is the state and Go's [error] ([None] is [nil]). *)
Definition Start (bind : option string) (ps : ProxyServer)
  : ProxyServer * option string :=
  if isRunning ps then (ps, Some "proxy server already running")
  else
    match bind with
    | Some err => (ps, Some ("failed to start proxy server: " +:+ err))
    | None => (setRunning ps (Some (Port (config ps))) true, None)
    end.

(** [Stop]. [close] is the outcome of [listener.Close], as [bind] above. *)
Definition Stop (close : option string) (ps : ProxyServer)
  : ProxyServer * option FlushCall * option string :=
  if negb (isRunning ps) then (ps, None, Some "proxy server not running")
  else
    let '(ps1, call) := flushBatches ps in
    match listener ps1, close with
    | Some _, Some err =>
        (ps1, call, Some ("failed to stop proxy server: " +:+ err))
    | _, _ => (setRunning ps1 (listener ps1) false, call, None)
    end.

Definition GetStatus (ps : ProxyServer) : ProxyStatus :=
  {| IsRunning := isRunning ps; StatusPort := Port (config ps);
     CertificatePath := CertPath (config ps) |}.

Definition UpdateConfig (cfg : ProxyConfig) (ps : ProxyServer)
  : ProxyServer :=
  {| config := cfg; listener := listener ps; requestID := requestID ps;
     reqCache := reqCache ps; cacheHead := cacheHead ps;
     cacheTail := cacheTail ps; cacheCount := cacheCount ps;
     reqBatch := reqBatch ps; respBatch := respBatch ps;
     batchTimer := batchTimer ps; onBatchFlush := onBatchFlush ps;
     isRunning := isRunning ps |}.

Definition GetConfig (ps : ProxyServer) : ProxyConfig := config ps.

End Proxy.

(** ** [internal/proxy/certificate.go] *)

Module Certificate.

(** [tls.Certificate]: the DER chain and the private key. *)
Record TLSCertificate := mkCert {
  chain : list (list byte);
  privateKey : list byte
}.

Record CertificateManager := mkManager {
  certPath : string;
  certCache : gmap string TLSCertificate;
  cacheMaxSize : nat
}.

(** [NewCertificateManager], once the CA has been loaded or generated. *)
Definition NewCertificateManager (caPath : string) : CertificateManager :=
  {| certPath := caPath; certCache := ∅; cacheMaxSize := 100 |}.

(** The eviction loop: [range cm.certCache] visits the keys in [order];
    each visited key is deleted, and the loop stops as soon as fewer than
    [half] entries are left. *)
Fixpoint evictLoop (half : nat) (order : list string)
    (cache : gmap string TLSCertificate) : gmap string TLSCertificate :=
  match order with
  | [] => cache
  | k :: rest =>
      let cache' := delete k cache in
      if (size cache' <? half)%nat then cache'
      else evictLoop half rest cache'
  end.

(** [GenerateServerCertificate]. [issued] is what key generation, serial
    number and signing produce for [domain]: [None] when any of them fails.
    [order] is the enumeration of the cache the eviction loop follows. The
    result is the state and the certificate ([None] is an error). *)
Definition GenerateServerCertificate (order : list string)
    (issued : option TLSCertificate) (domain : string)
    (cm : CertificateManager) : CertificateManager * option TLSCertificate :=
  match certCache cm !! domain with
  | Some cert => (cm, Some cert)
  | None =>
      match issued with
      | None => (cm, None)
      | Some cert =>
          let cache :=
            if (cacheMaxSize cm <=? size (certCache cm))%nat
            then evictLoop (cacheMaxSize cm / 2)%nat order (certCache cm)
            else certCache cm in
          ({| certPath := certPath cm; certCache := <[domain := cert]> cache;
              cacheMaxSize := cacheMaxSize cm |},
           Some cert)
      end
  end.

End Certificate.

(** ** [internal/ipc/server.go] *)

Module Ipc.
Import Models.

(** The buffer of an observer's channel: [make(chan models.IPCEvent, 100)]. *)
Definition channelCapacity : nat := 100.

(** The IPC server: the proxy it drives, and the observers' channels with
    the events queued in each, oldest first. *)
Record Server := mkServer {
  proxyServer : Proxy.ProxyServer;
  eventClients : gmap nat (list IPCEvent)
}.

Definition NewServer (ps : Proxy.ProxyServer) : Server :=
  {| proxyServer := Proxy.SetOnBatchFlush ps; eventClients := ∅ |}.

(** [select { case client <- event: default: }] on a buffered channel. *)
Definition trySend (event : IPCEvent) (queue : list IPCEvent)
  : list IPCEvent :=
  if (length queue <? channelCapacity)%nat then queue ++ [event] else queue.

Definition broadcast (event : IPCEvent) (clients : gmap nat (list IPCEvent))
  : gmap nat (list IPCEvent) :=
  trySend event <$> clients.

Definition handleBatchFlush (requests responses : list RequestDetails)
    (clients : gmap nat (list IPCEvent)) : gmap nat (list IPCEvent) :=
  let clients1 :=
    if (0 <? length requests)%nat
    then broadcast {| Type_ := "proxy-request-batch";
                      Data := RequestDetailsSlice requests |}
           clients
    else clients in
  if (0 <? length responses)%nat
  then broadcast {| Type_ := "proxy-response-batch";
                    Data := RequestDetailsSlice responses |}
         clients1
  else clients1.

(** Running the callback a proxy operation asked for. *)
Definition deliver (call : option Proxy.FlushCall)
    (clients : gmap nat (list IPCEvent)) : gmap nat (list IPCEvent) :=
  match call with
  | Some (requests, responses) => handleBatchFlush requests responses clients
  | None => clients
  end.

(** [ps.flushBatches()] on the server's proxy, callback included. *)
Definition flush (s : Server) : Server :=
  let '(ps, call) := Proxy.flushBatches (proxyServer s) in
  {| proxyServer := ps; eventClients := deliver call (eventClients s) |}.

(** A control-plane request: the method and, for [/api/proxy/start], the
    [port] of the JSON body ([None] when the body does not decode). *)
Record ApiRequest := mkApiRequest {
  apiMethod : string;
  apiPort : option Z
}.

(** What a handler writes: [http.Error] (plain text), [sendError] or
    [sendSuccess] with a status payload. *)
Inductive ApiResponse :=
| HttpError (message : string) (statusCode : Z)
| SendError (message : string) (statusCode : Z)
| SendSuccess (data : ProxyStatus).

Definition withPort (cfg : ProxyConfig) (port : Z) : ProxyConfig :=
  {| Port := port; SSLInterception := SSLInterception cfg;
     CustomHeaders := CustomHeaders cfg;
     SaveOnlyInScope := SaveOnlyInScope cfg; InScope := InScope cfg;
     OutOfScope := OutOfScope cfg; CertPath := CertPath cfg |}.

Definition withProxy (s : Server) (ps : Proxy.ProxyServer) : Server :=
  {| proxyServer := ps; eventClients := eventClients s |}.

(** [handleStart]. [GetConfig] returns the pointer the proxy holds, so the
    assignment to [config.Port] already changes the proxy's configuration;
    [UpdateConfig] then stores the same pointer back. *)
Definition handleStart (bind : option string) (r : ApiRequest) (s : Server)
  : Server * ApiResponse :=
  if negb (String.eqb (apiMethod r) "POST")
  then (s, HttpError "Method not allowed" 405)
  else
    match apiPort r with
    | None => (s, SendError "Invalid request body" 400)
    | Some port =>
        let config := withPort (Proxy.GetConfig (proxyServer s)) port in
        let ps1 := Proxy.UpdateConfig config (proxyServer s) in
        match Proxy.Start bind ps1 with
        | (ps2, Some err) => (withProxy s ps2, SendError err 500)
        | (ps2, None) => (withProxy s ps2, SendSuccess (Proxy.GetStatus ps2))
        end
    end.

Definition handleStatus (r : ApiRequest) (s : Server) : ApiResponse :=
  if negb (String.eqb (apiMethod r) "GET")
  then HttpError "Method not allowed" 405
  else SendSuccess (Proxy.GetStatus (proxyServer s)).

End Ipc.

(** ** Notions the properties are stated with *)

Module Spec.
Import Models Proxy Ipc.

(** The keys [sanitizeHeaders] may set. *)
Definition defaultedKeys : list string :=
  ["User-Agent"; "Accept"; "Accept-Language"; "Accept-Encoding"].

(** The invariant of the ring: the buffer has its full length, the indices
    are in range and the tail is [count] slots after the head. *)
Definition cache_wf (ps : ProxyServer) : Prop :=
  length (reqCache ps) = MaxCachedRequests
  /\ (cacheCount ps <= MaxCachedRequests)%nat
  /\ (cacheHead ps < MaxCachedRequests)%nat
  /\ cacheTail ps
     = ((cacheHead ps + cacheCount ps) mod MaxCachedRequests)%nat.

(** The live records, oldest first. *)
Definition live (ps : ProxyServer) : list RequestDetails :=
  (fun i => slot (reqCache ps) ((cacheHead ps + i) mod MaxCachedRequests)%nat)
    <$> seq 0 (cacheCount ps).

(** Appending a sequence of records, first to last. *)
Definition appendAll (l : list RequestDetails) (ps : ProxyServer)
  : ProxyServer :=
  foldl (fun s r => addToCache r s) ps l.

(** Replacing the first record that carries the id of [d]. *)
Fixpoint replaceFirst (d : RequestDetails) (l : list RequestDetails)
  : list RequestDetails :=
  match l with
  | [] => []
  | r :: t => if ID r =? ID d then d :: t else r :: replaceFirst d t
  end.

(** The last [m] elements of a list. *)
Definition keepLast {A} (m : nat) (l : list A) : list A :=
  drop (length l - m) l.

(** Replacing a record when it carries the id of [d]. *)
Definition replaceById (d r : RequestDetails) : RequestDetails :=
  if ID r =? ID d then d else r.

(** Two states with the same ring. *)
Definition sameCache (a b : ProxyServer) : Prop :=
  reqCache a = reqCache b /\ cacheHead a = cacheHead b
  /\ cacheTail a = cacheTail b /\ cacheCount a = cacheCount b.

(** The events of one flush: a request batch event and a response batch
    event, each left out when its batch is empty. *)
Definition batchEvents (requests responses : list RequestDetails)
  : list IPCEvent :=
  (if (0 <? length requests)%nat
   then [{| Type_ := "proxy-request-batch";
            Data := RequestDetailsSlice requests |}]
   else [])
  ++ (if (0 <? length responses)%nat
      then [{| Type_ := "proxy-response-batch";
               Data := RequestDetailsSlice responses |}]
      else []).

(** What an observer's channel holds after the events [evs] were offered to
    it in turn. *)
Definition offer (evs : list IPCEvent) (queue : list IPCEvent)
  : list IPCEvent :=
  foldl (fun q ev => trySend ev q) queue evs.

End Spec.

(** ** Worked inputs *)

Module Worked.
Import Models Proxy Ipc Certificate Spec.

Definition scopeExample : ProxyConfig :=
  {| Port := 8080; SSLInterception := true; CustomHeaders := ∅;
     SaveOnlyInScope := true; InScope := ["*.example.com"];
     OutOfScope := ["admin.example.com"]; CertPath := "" |}.

Definition authRequest : Http.Request :=
  {| Http.Method := "GET"; Http.Host := "plain.test"; Http.URLPath := "/";
     Http.RawQuery := "";
     Http.ReqHeader :=
       {[ "Proxy-Authorization"%string := ["Basic dXNlcjpwYXNz"%string];
          "Via"%string := ["1.1 cache"%string] ]};
     Http.TLS := false; Http.ReqBody := None |}.

(** A captured [GET] with the given id. *)
Definition exchange (id : nat) : RequestDetails :=
  {| ID := Z.of_nat id; Host := "plain.test"; Method := "GET";
     Path := "/hello"; Query := "x=1"; Headers := ∅; Timestamp := 0;
     ResponseLength := 0; Status := 0; ResponseTime := 0;
     Protocol := "http"; Body := ""; ResponseBody := "";
     ResponseHeaders := ∅; Error := "" |}.

(** Exchanges with the ids [first], [first + 1], ..., [n] of them. *)
Definition exchanges (first n : nat) : list RequestDetails :=
  exchange <$> seq first n.

Definition noDecoder (data : list byte) : option (list byte) := None.

(** The header values of the worked inputs are ASCII, so [strings.ToLower]
    never takes its Unicode branch on them; this function stands in that
    place. *)
Definition asciiOnly (s : string) : string := s.

Definition plainRequest : Http.Request :=
  {| Http.Method := "GET"; Http.Host := "plain.test";
     Http.URLPath := "/hello"; Http.RawQuery := "x=1"; Http.ReqHeader := ∅;
     Http.TLS := false; Http.ReqBody := None |}.

(** [user=a] *)
Definition formBytes : list byte := [x75; x73; x65; x72; x3d; x61]%byte.

Definition postRequest : Http.Request :=
  {| Http.Method := "POST"; Http.Host := "plain.test";
     Http.URLPath := "/login"; Http.RawQuery := "";
     Http.ReqHeader :=
       {[ "Content-Type"%string
            := ["application/x-www-form-urlencoded"%string] ]};
     Http.TLS := false; Http.ReqBody := Some (Http.bufferOf formBytes) |}.

(** [hi] *)
Definition textResponse : Http.Response :=
  {| Http.StatusCode := 200;
     Http.RespHeader := {[ "Content-Type"%string := ["text/plain"%string] ]};
     Http.RespBody := Some (Http.bufferOf [x68; x69]%byte) |}.

Definition pngResponse : Http.Response :=
  {| Http.StatusCode := 200;
     Http.RespHeader := {[ "Content-Type"%string := ["image/png"%string] ]};
     Http.RespBody := Some (Http.bufferOf [x89; x50; x4e; x47]%byte) |}.

(** The text of the JSON object with the one member [a] equal to 1. *)
Definition jsonBytes : list byte := [x7b; x22; x61; x22; x3a; x31; x7d]%byte.

(** A compressed body of 26 bytes. *)
Definition compressedBytes : list byte :=
  [x1f; x8b; x08; x00; x00; x00; x00; x00; x02; xff; xaa; x56; x4a; x54;
   xb2; x32; xac; x05; xaf; xac; x1b; x56; x07; x00; x00; x00]%byte.

(** A decoder under which [compressedBytes] is the compressed form of
    [jsonBytes]. *)
Definition sampleGunzip (data : list byte) : option (list byte) :=
  if List.list_eq_dec byte_eq_dec data compressedBytes then Some jsonBytes
  else None.

Definition gzipResponse : Http.Response :=
  {| Http.StatusCode := 200;
     Http.RespHeader :=
       {[ "Content-Type"%string := ["application/json"%string];
          "Content-Encoding"%string := ["gzip"%string] ]};
     Http.RespBody := Some (Http.bufferOf compressedBytes) |}.

(** A proxy with the flush callback installed, and the same proxy after the
    request handler has seen [postRequest]. *)
Definition freshProxy : ProxyServer :=
  SetOnBatchFlush (NewProxyServer "" None).

Definition posted : RequestOutcome :=
  onRequestHandler [] 0 postRequest freshProxy.

Definition postedCtx : ProxyCtx :=
  {| Req := forwarded posted; ctxUserData := Some (userData posted) |}.

(** The store after the exchanges 1..1000: a full ring. *)
Definition fullStore : ProxyServer :=
  appendAll (exchanges 1 1000) (NewProxyServer "" None).

(** The control plane with the proxy started on port 8080. *)
Definition startedServer : Server :=
  (handleStart None {| apiMethod := "POST"; apiPort := Some 8080 |}
     (NewServer (NewProxyServer "" None))).1.

Definition secondStart : ApiRequest :=
  {| apiMethod := "POST"; apiPort := Some 9999 |}.

Definition sampleCert (n : nat) : TLSCertificate :=
  {| chain := [[x30; x82]%byte]; privateKey := replicate n x01%byte |}.

(** A manager whose cache holds the 100 domains [host0.test] ...
    [host99.test]. *)
Definition fullManager : CertificateManager :=
  {| certPath := "ca.crt";
     certCache :=
       list_to_map
         ((fun i => ("host" +:+ pretty i +:+ ".test", sampleCert i))
            <$> seq 0 100);
     cacheMaxSize := 100 |}.

Definition fullOrder : list string := (map_to_list (certCache fullManager)).*1.

End Worked.

(** * Properties *)

Import Spec Worked.

(** Closed decidable statements (membership in a literal list and the
    like) are settled by evaluating their decision procedure. *)
Ltac by_evaluation := apply (bool_decide_unpack _); vm_compute; exact I.

(** ** Byte strings *)

Section StringFacts.

Lemma append_cons (c : ascii) (a b : string) :
  String c a +:+ b = String c (a +:+ b).
Proof. reflexivity. Qed.

Lemma substring_whole (s : string) : substring 0 (String.length s) s = s.
Proof. induction s as [|c s IH]; simpl; [done | by rewrite IH]. Qed.

Lemma substring_skip (a b : string) (m : nat) :
  substring (String.length a) m (a +:+ b) = substring 0 m b.
Proof. induction a as [|c a IH]; simpl; [by destruct m, b | done]. Qed.

Lemma substring_split (s : string) (n m : nat) :
  (n + m)%nat = String.length s ->
  substring 0 n s +:+ substring n m s = s.
Proof.
  revert n m. induction s as [|c s IH]; intros [|n] m; simpl; intros Hlen.
  - by subst m.
  - done.
  - subst m. simpl. by rewrite substring_whole.
  - rewrite append_cons. f_equal. apply IH. lia.
Qed.

Lemma length_append (a b : string) :
  String.length (a +:+ b) = (String.length a + String.length b)%nat.
Proof. induction a as [|c a IH]; simpl; [done | by rewrite IH]. Qed.

(** [strings.HasSuffix] is: some string followed by the suffix. *)
Lemma HasSuffix_spec (s suffix : string) :
  GoStrings.HasSuffix s suffix = true <-> exists pre, s = pre +:+ suffix.
Proof.
  unfold GoStrings.HasSuffix. rewrite andb_true_iff, Nat.leb_le, String.eqb_eq.
  split.
  - intros [Hle Hsub].
    exists (substring 0 (String.length s - String.length suffix) s).
    rewrite <- Hsub at 2. symmetry. apply substring_split. lia.
  - intros [pre ->]. rewrite length_append. split; [lia |].
    replace (String.length pre + String.length suffix - String.length suffix)%nat
      with (String.length pre) by lia.
    by rewrite substring_skip, substring_whole.
Qed.

Lemma HasPrefix_spec (s prefix : string) :
  GoStrings.HasPrefix s prefix = true <-> exists post, s = prefix +:+ post.
Proof.
  unfold GoStrings.HasPrefix. rewrite andb_true_iff, Nat.leb_le, String.eqb_eq.
  split.
  - intros [Hle Hsub].
    exists (substring (String.length prefix)
              (String.length s - String.length prefix) s).
    rewrite <- Hsub at 1. symmetry. apply substring_split. lia.
  - intros [post ->]. rewrite length_append. split; [lia |].
    induction prefix as [|c p IH]; simpl; [by destruct post | by rewrite IH].
Qed.

Lemma sliceFrom_wildcard (suffix : string) :
  GoStrings.sliceFrom 2 ("*." +:+ suffix) = suffix.
Proof.
  unfold GoStrings.sliceFrom. simpl. rewrite Nat.sub_0_r.
  apply substring_whole.
Qed.

End StringFacts.

(** ** Scope filter *)

Section Scope.
Import Models Proxy.

(** What the wildcard branch of [matchesPattern] computes: the host ends
    with the text after [*.], at any position. *)
Lemma matchesPattern_wildcard (host suffix : string) :
  matchesPattern host ("*." +:+ suffix) = true
  <-> exists pre, host = pre +:+ suffix.
Proof.
  unfold matchesPattern.
  destruct (String.eqb_spec ("*." +:+ suffix) host) as [<- | Hne].
  { split; [by exists "*."%string | done]. }
  assert (GoStrings.HasPrefix ("*." +:+ suffix) "*." = true) as ->
    by (apply HasPrefix_spec; by exists suffix).
  rewrite sliceFrom_wildcard, orb_true_iff, HasSuffix_spec, String.eqb_eq.
  split; [| tauto].
  intros [H | ->]; [done | by exists ""%string].
Qed.

(** Exclusions take precedence: with [SaveOnlyInScope] set, a host that
    matches an out-of-scope pattern is dropped whatever [InScope] holds. *)
Lemma shouldSave_outOfScope_first (cfg : ProxyConfig) (host pattern : string) :
  SaveOnlyInScope cfg = true ->
  pattern ∈ OutOfScope cfg ->
  matchesPattern host pattern = true ->
  shouldSave cfg host = false.
Proof.
  intros Hon Hin Hm. unfold shouldSave. rewrite Hon. simpl.
  assert (existsb (matchesPattern host) (OutOfScope cfg) = true) as ->; [| done].
  apply existsb_exists. exists pattern. by rewrite <- list_elem_of_In.
Qed.

Lemma shouldSave_scoped (cfg : ProxyConfig) (host : string) :
  SaveOnlyInScope cfg = true ->
  shouldSave cfg host
  = negb (existsb (matchesPattern host) (OutOfScope cfg))
    && existsb (matchesPattern host) (InScope cfg).
Proof.
  intros Hon. unfold shouldSave. rewrite Hon. simpl.
  by destruct (existsb _ (OutOfScope cfg)), (existsb _ (InScope cfg)).
Qed.

(** C1, evaluated on the code: [notexample.com] is neither [example.com] nor
    a name ending in [.example.com], and [matchesPattern] still matches it
    against [*.example.com], so with that pattern in scope the record is
    kept. The out-of-scope pattern is looked at first and drops
    [admin.example.com]. *)
Theorem C1_wildcard_matches_across_labels :
  matchesPattern "notexample.com" "*.example.com" = true
  /\ "notexample.com"%string <> "example.com"%string
  /\ GoStrings.HasSuffix "notexample.com" ".example.com" = false
  /\ shouldSave scopeExample "notexample.com" = true
  /\ shouldSave scopeExample "admin.example.com" = false.
Proof. repeat split; done. Qed.

End Scope.

(** ** Header sanitization *)

Section Sanitize.
Import Models Proxy.

Lemma setIfMissing_lookup_ne (key value k : string) (h : Http.Header) :
  k <> Http.CanonicalMIMEHeaderKey key ->
  setIfMissing key value h !! k = h !! k.
Proof.
  intros Hne. unfold setIfMissing, Http.Set_.
  destruct (String.eqb _ _); [by rewrite lookup_insert_ne | done].
Qed.

Lemma foldl_Del_lookup (names : list string) (h : Http.Header) (k : string) :
  foldl Http.Del h names !! k
  = if decide (k ∈ Http.CanonicalMIMEHeaderKey <$> names) then None
    else h !! k.
Proof.
  revert h. induction names as [|n names IH]; intros h.
  - destruct (decide _) as [H|]; [by apply elem_of_nil in H | done].
  - cbn [foldl]. rewrite IH. unfold Http.Del. rewrite fmap_cons.
    destruct (decide (k = Http.CanonicalMIMEHeaderKey n)) as [-> | Hne].
    + rewrite lookup_delete_eq.
      destruct (decide _) as [|Hn1]; destruct (decide _) as [|Hn2]; try done.
      all: exfalso; apply Hn2; apply elem_of_cons; by left.
    + rewrite lookup_delete_ne by done.
      destruct (decide _) as [Hy1|Hn1]; destruct (decide _) as [Hy2|Hn2];
        try done; exfalso.
      * apply Hn2, elem_of_cons. by right.
      * apply elem_of_cons in Hy2 as [? | ?]; done.
Qed.

Lemma sanitizeHeader_lookup (h : Http.Header) (k : string) :
  k ∉ defaultedKeys ->
  sanitizeHeader h !! k
  = if decide (k ∈ Http.CanonicalMIMEHeaderKey <$> proxyHeaders) then None
    else h !! k.
Proof.
  intros Hk. unfold sanitizeHeader.
  rewrite !setIfMissing_lookup_ne; [apply foldl_Del_lookup | ..];
    intros ->; apply Hk; by_evaluation.
Qed.

Lemma captureRequest_headers (req : Http.Request) (id now : Z) :
  Http.ReqHeader (captureRequest req id now).2 = Http.ReqHeader req.
Proof.
  unfold captureRequest. destruct (Http.ReqBody req) as [b|]; [| done].
  destruct (Http.ReadAllLimited _ _) as [bytes|]; [| done].
  by destruct (0 <? length bytes)%nat.
Qed.

Lemma forwarded_request (order : list (string * string)) (now : Z)
    (req : Http.Request) (ps : ProxyServer) :
  forwarded (onRequestHandler order now req ps)
  = (captureRequest (addCustomHeaders order (sanitizeHeaders req))
       (wrap64 (requestID ps + 1)) now).2.
Proof.
  unfold onRequestHandler. destruct (captureRequest _ _ _) as [details req2].
  by destruct (if shouldSave _ _ then _ else _).
Qed.

Lemma forwarded_headers (order : list (string * string)) (now : Z)
    (req : Http.Request) (ps : ProxyServer) :
  Http.ReqHeader (forwarded (onRequestHandler order now req ps))
  = foldl (fun h kv => Http.Set_ h kv.1 kv.2)
      (sanitizeHeader (Http.ReqHeader req)) order.
Proof. by rewrite forwarded_request, captureRequest_headers. Qed.

(** The eight names of the specification's sanitization list, on the
    repository's code: [sanitizeHeaders] deletes the seven names of [proxyHeaders], so none of
    them is present afterwards, and it leaves a [Proxy-Authorization] header
    exactly as the client sent it; the request the handler returns to
    goproxy carries the sanitized headers with the custom headers set on
    top. What goproxy does to that request before it writes it to the
    upstream is library code outside this development. *)
Lemma sanitizeHeaders_deletes_seven (req : Http.Request) :
  proxyHeaders
  = ["X-Forwarded-For"; "X-Forwarded-Host"; "X-Forwarded-Proto"; "X-Real-IP";
     "Via"; "Forwarded"; "Proxy-Connection"]
  /\ Forall
       (fun name =>
          Http.ReqHeader (sanitizeHeaders req)
            !! Http.CanonicalMIMEHeaderKey name = None
          /\ Http.Get (Http.ReqHeader (sanitizeHeaders req)) name = ""%string)
       proxyHeaders
  /\ Http.ReqHeader (sanitizeHeaders req)
       !! Http.CanonicalMIMEHeaderKey "Proxy-Authorization"
     = Http.ReqHeader req !! Http.CanonicalMIMEHeaderKey "Proxy-Authorization"
  /\ forall order now ps,
       Http.ReqHeader (forwarded (onRequestHandler order now req ps))
       = foldl (fun h kv => Http.Set_ h kv.1 kv.2)
           (Http.ReqHeader (sanitizeHeaders req)) order.
Proof.
  split; [done |]. split; [| split].
  - apply Forall_forall. intros name Hname.
    assert (Http.ReqHeader (sanitizeHeaders req)
              !! Http.CanonicalMIMEHeaderKey name = None) as Hnone.
    { cbn [sanitizeHeaders withHeader Http.ReqHeader].
      rewrite sanitizeHeader_lookup.
      - rewrite decide_True; [done |]. by apply list_elem_of_fmap_2.
      - unfold proxyHeaders in Hname.
        repeat (apply elem_of_cons in Hname as [-> | Hname];
                [by_evaluation |]).
        by apply elem_of_nil in Hname. }
    split; [done |]. unfold Http.Get. by rewrite Hnone.
  - cbn [sanitizeHeaders withHeader Http.ReqHeader].
    rewrite sanitizeHeader_lookup; [| by_evaluation].
    rewrite decide_False; [done |]. by_evaluation.
  - intros. apply forwarded_headers.
Qed.

(** With no custom headers, the request the handler returns to goproxy
    still carries the client's [Proxy-Authorization] header, while [Via] is
    gone. *)
Lemma handler_keeps_proxy_authorization :
  let out := onRequestHandler [] 0 authRequest (NewProxyServer "" None) in
  Http.ReqHeader authRequest !! "Proxy-Authorization"%string
  = Some ["Basic dXNlcjpwYXNz"%string]
  /\ Http.ReqHeader (forwarded out) !! "Proxy-Authorization"%string
     = Some ["Basic dXNlcjpwYXNz"%string]
  /\ Http.ReqHeader (forwarded out) !! "Via"%string = None.
Proof. vm_compute. done. Qed.

End Sanitize.

(** ** Response capture *)

Section Capture.
Import Models Proxy.

Variable mapToLower : string -> string.
Variable gunzip : list byte -> option (list byte).
Variable unbrotli : list byte -> option (list byte).

(** On a string of ASCII bytes [strings.ToLower] does not consult the
    Unicode tables. *)
Lemma ToLower_ascii (f g : string -> string) (s : string) :
  GoStrings.isASCII s = true -> GoStrings.ToLower f s = GoStrings.ToLower g s.
Proof. intros H. unfold GoStrings.ToLower. by rewrite H. Qed.

Lemma limit_all (n : N) (l : list byte) :
  (N.of_nat (length l) <= n)%N -> Http.limit n l = l.
Proof.
  revert n. induction l as [|x l IH]; intros n Hn; [done |].
  cbn [Http.limit]. cbn [length] in Hn.
  destruct (N.eqb_spec n 0) as [-> | Hpos]; [lia |].
  f_equal. apply IH. lia.
Qed.

Lemma limit_length (n : N) (l : list byte) :
  (N.of_nat (length (Http.limit n l)) <= n)%N.
Proof.
  revert n. induction l as [|x l IH]; intros n; cbn [Http.limit]; [simpl; lia |].
  destruct (N.eqb_spec n 0) as [-> | Hpos]; [simpl; lia |].
  cbn [length]. specialize (IH (N.pred n)). lia.
Qed.

(** The response record repeats the request side except for the body: the
    struct literal does not name [Body]. *)
Lemma captureResponse_request_side (req : Http.Request) (resp : Http.Response)
    (id start now : Z) :
  let d := (captureResponse mapToLower gunzip unbrotli req resp id start
              now).1 in
  ID d = id /\ Host d = Http.Host req /\ Method d = Http.Method req
  /\ Status d = Http.StatusCode resp /\ ResponseTime d = now - start
  /\ Body d = ""%string.
Proof.
  unfold captureResponse.
  by destruct (let '(_, _, _) := _ in _) as [d r] eqn:E;
    destruct (match Http.RespBody resp with Some _ => _ | None => _ end)
      as [[rb cl] r'']; injection E as <- <-.
Qed.

Lemma onResponseHandler_no_response (now : Z) (ctx : ProxyCtx)
    (ps : ProxyServer) :
  onResponseHandler mapToLower gunzip unbrotli now None ctx ps
  = {| returned := None; afterResponse := ps; responseFlush := None |}.
Proof. unfold onResponseHandler. by destruct (ctxUserData ctx). Qed.

(** The two struct literals that build a record leave [Error] at its zero
    value. *)
Lemma captureRequest_Error (req : Http.Request) (id now : Z) :
  Error (captureRequest req id now).1 = ""%string.
Proof.
  unfold captureRequest.
  by destruct (match Http.ReqBody req with Some _ => _ | None => _ end).
Qed.

Lemma captureResponse_Error (req : Http.Request) (resp : Http.Response)
    (id start now : Z) :
  Error (captureResponse mapToLower gunzip unbrotli req resp id start now).1
  = ""%string.
Proof.
  unfold captureResponse.
  by destruct (match Http.RespBody resp with Some _ => _ | None => _ end)
    as [[rb cl] r''].
Qed.

(** C3, as the code has it: when the round trip to the upstream fails the
    response handler receives no response and returns at once: nothing is
    synthesized or emitted, no callback is called, and the proxy state, with
    the record stored at request time, is left as it was. No record the
    pipeline builds, at request time or from a response, has its [Error]
    field set. *)
Theorem C3_upstream_failure_emits_nothing (now : Z) (ctx : ProxyCtx)
    (ps : ProxyServer) :
  onResponseHandler mapToLower gunzip unbrotli now None ctx ps
  = {| returned := None; afterResponse := ps; responseFlush := None |}
  /\ (forall req id start, Error (captureRequest req id start).1 = ""%string)
  /\ (forall req resp id start,
        Error (captureResponse mapToLower gunzip unbrotli req resp id start
                 now).1 = ""%string).
Proof.
  split; [apply onResponseHandler_no_response |].
  split; intros; [apply captureRequest_Error | apply captureResponse_Error].
Qed.

(** C4, as the code has it: a response whose content type the heuristic
    does not class as textual, whatever the Unicode tables give on a value
    that is not ASCII, is handed back untouched, body unread; the record has
    an empty [ResponseBody] and [ResponseLength] is 0. *)
Theorem C4_non_textual_not_read (req : Http.Request) (resp : Http.Response)
    (id start now : Z) :
  shouldCaptureBody mapToLower
    (Http.Get (Http.RespHeader resp) "Content-Type") = false ->
  let out :=
    captureResponse mapToLower gunzip unbrotli req resp id start now in
  out.2 = resp
  /\ ResponseBody out.1 = ""%string
  /\ ResponseLength out.1 = 0.
Proof.
  intros Hct. unfold captureResponse. rewrite Hct.
  by destruct (Http.RespBody resp).
Qed.

(** C8: a textual response whose [Content-Encoding] names gzip and whose
    body, read in full within the cap, decodes: [ResponseLength] is the
    number of compressed bytes read and [ResponseBody] the decoded text; the
    client gets the compressed bytes back. *)
Theorem C8_gzip_length_before_decompression (req : Http.Request)
    (resp : Http.Response) (id start now : Z) (b : Http.Body)
    (text : list byte) :
  Http.RespBody resp = Some b ->
  Http.readFails b = false ->
  (N.of_nat (length (Http.content b)) <= MaxBodySize)%N ->
  shouldCaptureBody mapToLower
    (Http.Get (Http.RespHeader resp) "Content-Type") = true ->
  GoStrings.Contains
    (GoStrings.ToLower mapToLower
       (Http.Get (Http.RespHeader resp) "Content-Encoding"))
    "gzip" = true ->
  gunzip (Http.content b) = Some text ->
  let out :=
    captureResponse mapToLower gunzip unbrotli req resp id start now in
  ResponseLength out.1 = Z.of_nat (length (Http.content b))
  /\ ResponseBody out.1 = string_of_list_byte text
  /\ Http.RespBody out.2 = Some (Http.bufferOf (Http.content b)).
Proof.
  intros Hbody Hread Hcap Hct Hce Hgz.
  unfold captureResponse, Http.ReadAllLimited, decompressResponse.
  rewrite Hbody, Hct, Hread, (limit_all _ _ Hcap), Hce, Hgz.
  destruct (String.eqb_spec
              (Http.Get (Http.RespHeader resp) "Content-Encoding") "")
    as [Hempty | _]; [| done].
  rewrite Hempty in Hce. discriminate Hce.
Qed.

End Capture.

(** ** Capture store *)

Section Ring.
Import Models Proxy.

#[local] Opaque MaxCachedRequests.

Lemma capacity_pos : (0 < MaxCachedRequests)%nat.
Proof. by_evaluation. Qed.

Lemma mod_offset_inj (m h i j : nat) :
  (i < m)%nat -> (j < m)%nat ->
  ((h + i) mod m = (h + j) mod m)%nat -> i = j.
Proof.
  intros Hi Hj Heq.
  pose proof (Nat.div_mod_eq (h + i) m) as Ei.
  pose proof (Nat.div_mod_eq (h + j) m) as Ej.
  pose proof (Nat.mod_upper_bound (h + j) m ltac:(lia)) as Hr.
  rewrite Heq in Ei.
  destruct (lt_eq_lt_dec ((h + i) / m) ((h + j) / m)) as [[Hlt | Heq'] | Hgt];
    nia.
Qed.

Lemma GetRequests_live (ps : ProxyServer) : GetRequests ps = reverse (live ps).
Proof. unfold GetRequests, live. apply fmap_reverse. Qed.

Lemma length_live (ps : ProxyServer) : length (live ps) = cacheCount ps.
Proof. unfold live. by rewrite length_fmap, length_seq. Qed.

Lemma slot_insert_eq (cache : list RequestDetails) (i : nat)
    (r : RequestDetails) :
  (i < length cache)%nat -> slot (<[i := r]> cache) i = r.
Proof. intros Hi. unfold slot. by rewrite list_lookup_insert_eq. Qed.

Lemma slot_insert_ne (cache : list RequestDetails) (i j : nat)
    (r : RequestDetails) :
  i <> j -> slot (<[i := r]> cache) j = slot cache j.
Proof. intros Hne. unfold slot. by rewrite list_lookup_insert_ne. Qed.

Lemma cache_wf_new (certPath : string) (cfg : option ProxyConfig) :
  cache_wf (NewProxyServer certPath cfg).
Proof.
  pose proof capacity_pos. unfold cache_wf; simpl.
  rewrite length_replicate, Nat.Div0.mod_0_l. lia.
Qed.

Lemma cache_wf_clear (ps : ProxyServer) :
  cache_wf ps -> cache_wf (ClearRequests ps).
Proof.
  pose proof capacity_pos. intros (Hlen & _). unfold cache_wf; simpl.
  rewrite Nat.Div0.mod_0_l. lia.
Qed.

Lemma cache_wf_add (r : RequestDetails) (ps : ProxyServer) :
  cache_wf ps -> cache_wf (addToCache r ps).
Proof.
  pose proof capacity_pos as Hm.
  intros (Hlen & Hcount & Hhead & Htail). unfold addToCache.
  destruct (Nat.ltb_spec (cacheCount ps) MaxCachedRequests) as [Hlt | Hge];
    unfold cache_wf; simpl; rewrite length_insert.
  - repeat split; [done | lia | done |].
    rewrite Htail, Nat.Div0.add_mod_idemp_l. f_equal. lia.
  - repeat split; [done | done | by apply Nat.mod_upper_bound; lia |].
    rewrite Htail, !Nat.Div0.add_mod_idemp_l. f_equal. lia.
Qed.

(** One append: the record goes to the end of the live sequence, and when
    the ring is full the oldest record, and only that one, leaves it. *)
Lemma live_add (r : RequestDetails) (ps : ProxyServer) :
  cache_wf ps ->
  live (addToCache r ps)
  = if (cacheCount ps <? MaxCachedRequests)%nat then live ps ++ [r]
    else drop 1 (live ps) ++ [r].
Proof.
  pose proof capacity_pos as Hm.
  intros (Hlen & Hcount & Hhead & Htail). unfold addToCache.
  assert (cacheTail ps < length (reqCache ps))%nat as Hin
    by (rewrite Htail, Hlen; apply Nat.mod_upper_bound; lia).
  destruct (Nat.ltb_spec (cacheCount ps) MaxCachedRequests) as [Hlt | Hge];
    unfold live; simpl.
  - rewrite Nat.add_1_r, seq_S, fmap_app. simpl. f_equal.
    + apply list_fmap_ext. intros k i Hk. apply lookup_seq in Hk as [-> Hk].
      apply slot_insert_ne. rewrite Htail. intros Heq.
      apply mod_offset_inj in Heq; lia.
    + rewrite <- Htail. by rewrite slot_insert_eq.
  - assert (cacheCount ps = MaxCachedRequests) as Hfull by lia.
    assert (cacheTail ps = cacheHead ps) as Hth.
    { rewrite Htail, Hfull.
      rewrite <- (Nat.mul_1_l MaxCachedRequests) at 1.
      rewrite Nat.Div0.mod_add. apply Nat.mod_small. lia. }
    rewrite Hfull.
    assert (seq 0 MaxCachedRequests
            = seq 0 (MaxCachedRequests - 1) ++ [MaxCachedRequests - 1]%nat)
      as Hlast
      by (replace MaxCachedRequests with (S (MaxCachedRequests - 1)) at 1
            by lia; by rewrite seq_S).
    assert (seq 0 MaxCachedRequests = 0%nat :: seq 1 (MaxCachedRequests - 1))
      as Hfirst
      by (by replace MaxCachedRequests with (S (MaxCachedRequests - 1)) at 1
            by lia).
    rewrite Hlast at 1. rewrite Hfirst.
    rewrite fmap_cons, fmap_app. cbn [drop fmap list_fmap].
    rewrite <- fmap_S_seq, <- list_fmap_compose. f_equal.
    + apply list_fmap_ext. intros k i Hk. apply lookup_seq in Hk as [-> Hk].
      simpl. rewrite Nat.Div0.add_mod_idemp_l.
      replace (cacheHead ps + 1 + k)%nat with (cacheHead ps + S k)%nat by lia.
      apply slot_insert_ne. rewrite Hth.
      rewrite <- (Nat.mod_small (cacheHead ps) MaxCachedRequests) at 1 by lia.
      rewrite <- (Nat.add_0_r (cacheHead ps)) at 1.
      intros Heq. apply mod_offset_inj in Heq; lia.
    + f_equal. rewrite Nat.Div0.add_mod_idemp_l.
      replace (cacheHead ps + 1 + (MaxCachedRequests - 1))%nat
        with (cacheHead ps + 1 * MaxCachedRequests)%nat by lia.
      rewrite Nat.Div0.mod_add, Nat.mod_small by lia.
      rewrite <- Hth. by rewrite slot_insert_eq.
Qed.

Lemma keepLast_app {A} (m : nat) (a b : list A) :
  keepLast m (keepLast m a ++ b) = keepLast m (a ++ b).
Proof.
  unfold keepLast.
  rewrite <- (drop_app_le a b (length a - m)) by lia.
  rewrite drop_drop. f_equal. rewrite length_drop, !length_app. lia.
Qed.

Lemma live_add_keepLast (r : RequestDetails) (ps : ProxyServer) :
  cache_wf ps ->
  live (addToCache r ps) = keepLast MaxCachedRequests (live ps ++ [r]).
Proof.
  intros Hwf. rewrite live_add by done. destruct Hwf as (_ & Hcount & _).
  unfold keepLast. rewrite length_app, length_live. simpl.
  destruct (Nat.ltb_spec (cacheCount ps) MaxCachedRequests) as [Hlt | Hge].
  - by replace (cacheCount ps + 1 - MaxCachedRequests)%nat with 0%nat by lia.
  - replace (cacheCount ps + 1 - MaxCachedRequests)%nat with 1%nat by lia.
    pose proof capacity_pos.
    by rewrite drop_app_le by (rewrite length_live; lia).
Qed.

Lemma cache_wf_appendAll (l : list RequestDetails) (ps : ProxyServer) :
  cache_wf ps -> cache_wf (appendAll l ps).
Proof.
  revert ps. induction l as [|r l IH]; intros ps Hwf; [done |].
  apply IH. by apply cache_wf_add.
Qed.

Lemma live_appendAll (l : list RequestDetails) (ps : ProxyServer) :
  cache_wf ps ->
  live (appendAll l ps) = keepLast MaxCachedRequests (live ps ++ l).
Proof.
  revert ps. induction l as [|r l IH]; intros ps Hwf.
  - rewrite app_nil_r. unfold keepLast. rewrite length_live.
    destruct Hwf as (_ & Hcount & _).
    by replace (cacheCount ps - MaxCachedRequests)%nat with 0%nat by lia.
  - cbn [appendAll foldl]. fold (appendAll l (addToCache r ps)).
    rewrite IH by (by apply cache_wf_add).
    rewrite live_add_keepLast by done.
    by rewrite keepLast_app, <- app_assoc.
Qed.

Lemma reverse_keepLast {A} (m : nat) (l : list A) :
  reverse (keepLast m l) = take m (reverse l).
Proof.
  unfold keepLast. rewrite reverse_drop.
  destruct (Nat.le_gt_cases (length l) m) as [Hle | Hgt].
  - rewrite !take_ge; [done | rewrite length_reverse; lia ..].
  - f_equal. lia.
Qed.

(** The snapshot after a run of appends: the appended records, newest
    first, then the older snapshot, cut at the capacity. *)
Lemma GetRequests_appendAll (l : list RequestDetails) (ps : ProxyServer) :
  cache_wf ps ->
  GetRequests (appendAll l ps)
  = take MaxCachedRequests (reverse l ++ GetRequests ps).
Proof.
  intros Hwf.
  by rewrite !GetRequests_live, live_appendAll, reverse_keepLast, reverse_app.
Qed.

(** *** Update by id *)

Lemma updateLoop_spec (d : RequestDetails) (head n a : nat)
    (cache : list RequestDetails) :
  length cache = MaxCachedRequests ->
  (a + n <= MaxCachedRequests)%nat ->
  let cache' := updateLoop d head (seq a n) cache in
  let at_ c i := slot c ((head + i) mod MaxCachedRequests)%nat in
  length cache' = MaxCachedRequests
  /\ (forall j, (j < MaxCachedRequests)%nat -> (j < a \/ a + n <= j)%nat ->
        at_ cache' j = at_ cache j)
  /\ at_ cache' <$> seq a n = replaceFirst d (at_ cache <$> seq a n).
Proof.
  pose proof capacity_pos as Hm.
  revert a. induction n as [|n IH]; intros a Hlen Hbound; [done |].
  cbn [seq updateLoop fmap list_fmap replaceFirst]. cbv zeta.
  destruct (ID (slot cache ((head + a) mod MaxCachedRequests)) =? ID d)
    eqn:Hid.
  - rewrite length_insert. split; [done |]. split.
    + intros j Hj Hout. apply slot_insert_ne.
      intros Heq. apply mod_offset_inj in Heq; lia.
    + f_equal.
      * apply slot_insert_eq. rewrite Hlen. apply Nat.mod_upper_bound. lia.
      * apply list_fmap_ext. intros k i Hk. apply lookup_seq in Hk as [-> Hk].
        apply slot_insert_ne. intros Heq. apply mod_offset_inj in Heq; lia.
  - destruct (IH (S a) Hlen ltac:(lia)) as (Hlen' & Hout & Hin).
    split; [done |]. split.
    + intros j Hj Hj'. apply Hout; lia.
    + f_equal; [apply Hout; lia | done].
Qed.

Lemma cache_wf_update (d : RequestDetails) (ps : ProxyServer) :
  cache_wf ps -> cache_wf (updateInCache d ps).
Proof.
  intros (Hlen & Hcount & Hhead & Htail). unfold cache_wf; simpl.
  by destruct (updateLoop_spec d (cacheHead ps) (cacheCount ps) 0 (reqCache ps)
                 Hlen Hcount) as (-> & _).
Qed.

Lemma live_update (d : RequestDetails) (ps : ProxyServer) :
  cache_wf ps -> live (updateInCache d ps) = replaceFirst d (live ps).
Proof.
  intros (Hlen & Hcount & Hhead & Htail).
  by destruct (updateLoop_spec d (cacheHead ps) (cacheCount ps) 0 (reqCache ps)
                 Hlen Hcount) as (_ & _ & Hin).
Qed.

(** With ids that occur once, replacing the first record with the id is
    replacing every record with the id. *)
Lemma replaceFirst_unique (d : RequestDetails) (l : list RequestDetails) :
  NoDup (ID <$> l) -> ID d ∉ ID <$> l -> replaceFirst d l = l.
Proof.
  induction l as [|r l IH]; intros Hnd Hnotin; [done |].
  cbn [replaceFirst]. rewrite fmap_cons in Hnd, Hnotin.
  apply NoDup_cons in Hnd as [_ Hnd]. apply not_elem_of_cons in Hnotin as [Hne ?].
  destruct (Z.eqb_spec (ID r) (ID d)) as [Heq | _]; [congruence |].
  f_equal. by apply IH.
Qed.

Lemma replaceById_absent (d : RequestDetails) (l : list RequestDetails) :
  ID d ∉ ID <$> l -> replaceById d <$> l = l.
Proof.
  induction l as [|r l IH]; intros Hnotin; [done |].
  rewrite fmap_cons in *. apply not_elem_of_cons in Hnotin as [Hne ?].
  unfold replaceById at 1.
  destruct (Z.eqb_spec (ID r) (ID d)) as [Heq | _]; [congruence |].
  f_equal. by apply IH.
Qed.

Lemma replaceFirst_NoDup (d : RequestDetails) (l : list RequestDetails) :
  NoDup (ID <$> l) -> replaceFirst d l = replaceById d <$> l.
Proof.
  induction l as [|r l IH]; intros Hnd; [done |].
  rewrite fmap_cons in Hnd. apply NoDup_cons in Hnd as [Hr Hnd].
  cbn [replaceFirst]. rewrite fmap_cons. unfold replaceById at 1.
  destruct (Z.eqb_spec (ID r) (ID d)) as [Heq | Hne].
  - f_equal. symmetry. apply replaceById_absent. by rewrite <- Heq.
  - f_equal. by apply IH.
Qed.

Lemma GetRequests_update (d : RequestDetails) (ps : ProxyServer) :
  cache_wf ps ->
  NoDup (ID <$> GetRequests ps) ->
  GetRequests (updateInCache d ps) = replaceById d <$> GetRequests ps.
Proof.
  intros Hwf Hnd. rewrite !GetRequests_live in *.
  rewrite fmap_reverse, reverse_Permutation in Hnd.
  rewrite live_update by done.
  by rewrite replaceFirst_NoDup, fmap_reverse.
Qed.

End Ring.

(** ** Emission: store and batches *)

Section Emit.
Import Models Proxy.

#[local] Opaque BatchSize.

Lemma sameCache_GetRequests (a b : ProxyServer) :
  sameCache a b -> GetRequests a = GetRequests b.
Proof. intros (Hc & Hh & _ & Hn). unfold GetRequests. by rewrite Hc, Hh, Hn. Qed.

Lemma sameCache_wf (a b : ProxyServer) :
  sameCache a b -> cache_wf b -> cache_wf a.
Proof. intros (Hc & Hh & Ht & Hn). unfold cache_wf. by rewrite Hc, Hh, Ht, Hn. Qed.

Lemma sameCache_afterBatch (ps : ProxyServer) (reqs resps : list RequestDetails)
    (timer : bool) :
  let ps' := setBatches ps reqs resps timer in
  sameCache (if (BatchSize <=? length (respBatch ps'))%nat
             then flushBatches ps' else (scheduleBatchFlush ps', None)).1 ps
  /\ sameCache (if (BatchSize <=? length (reqBatch ps'))%nat
                then flushBatches ps' else (scheduleBatchFlush ps', None)).1 ps.
Proof.
  simpl. unfold scheduleBatchFlush.
  split; destruct (BatchSize <=? _)%nat; simpl; try done;
    by destruct timer.
Qed.

Lemma emitResponse_cache (d : RequestDetails) (ps : ProxyServer) :
  Method d <> "CONNECT"%string ->
  sameCache (emitResponse d ps).1 (updateInCache d ps).
Proof.
  intros Hm. unfold emitResponse.
  destruct (String.eqb_spec (Method d) "CONNECT") as [? | _]; [done |].
  apply (sameCache_afterBatch (updateInCache d ps)).
Qed.

Lemma emitRequest_cache (d : RequestDetails) (ps : ProxyServer) :
  Method d <> "CONNECT"%string ->
  sameCache (emitRequest d ps).1 (addToCache d ps).
Proof.
  intros Hm. unfold emitRequest.
  destruct (String.eqb_spec (Method d) "CONNECT") as [? | _]; [done |].
  apply (sameCache_afterBatch (addToCache d ps)).
Qed.

(** What [emitResponse] does to the response batch: the record is appended,
    and the batch is either kept for the timer or handed to the callback. *)
Lemma emitResponse_batch (d : RequestDetails) (ps : ProxyServer) :
  Method d <> "CONNECT"%string ->
  let out := emitResponse d ps in
  if (BatchSize <=? length (respBatch ps ++ [d]))%nat
  then respBatch out.1 = []
       /\ out.2 = (if onBatchFlush ps
                   then Some (reqBatch ps, respBatch ps ++ [d]) else None)
  else respBatch out.1 = respBatch ps ++ [d] /\ out.2 = None.
Proof.
  intros Hm. unfold emitResponse.
  destruct (String.eqb_spec (Method d) "CONNECT") as [? | _]; [done |].
  simpl. destruct (BatchSize <=? _)%nat eqn:Hfull; simpl.
  - split; [done |]. destruct (onBatchFlush ps); [| done]. simpl.
    rewrite length_app. simpl.
    replace (0 <? length (respBatch ps) + 1)%nat with true
      by (symmetry; apply Nat.ltb_lt; lia).
    by rewrite orb_true_r.
  - unfold scheduleBatchFlush. simpl. by destruct (batchTimer ps).
Qed.

End Emit.

(** ** The claims on the capture store *)

Section Store.
Import Models Proxy.

#[local] Opaque MaxCachedRequests.

Lemma GetRequests_empty (ps : ProxyServer) :
  cacheCount ps = 0%nat -> GetRequests ps = [].
Proof. intros H. unfold GetRequests. by rewrite H. Qed.

Lemma length_GetRequests (ps : ProxyServer) :
  length (GetRequests ps) = cacheCount ps.
Proof. by rewrite GetRequests_live, length_reverse, length_live. Qed.

(** C6: the store is a ring of capacity 1000. From any well-formed state,
    after appending the records [l] the snapshot is [l] newest first
    followed by the older snapshot, cut at the capacity: it never exceeds
    1000 records and is in newest-first order. One append puts the record in
    front and keeps the first 999 of the older snapshot, so a full ring
    loses its last, oldest, record and no other. After 1500 appends with ids
    1..1500 to the empty store the snapshot has 1000 entries, from id 1500
    down to id 501. *)
Theorem C6_ring_eviction_newest_first (ps : ProxyServer)
    (l : list RequestDetails) :
  cache_wf ps ->
  MaxCachedRequests = 1000%nat
  /\ cache_wf (appendAll l ps)
  /\ GetRequests (appendAll l ps)
     = take MaxCachedRequests (reverse l ++ GetRequests ps)
  /\ (length (GetRequests (appendAll l ps)) <= MaxCachedRequests)%nat
  /\ (forall r,
        GetRequests (addToCache r ps)
        = r :: take (MaxCachedRequests - 1) (GetRequests ps))
  /\ let snapshot :=
       GetRequests (appendAll (exchanges 1 1500) (NewProxyServer "" None)) in
     length snapshot = 1000%nat
     /\ ID <$> head snapshot = Some 1500
     /\ ID <$> last snapshot = Some 501
     /\ ID <$> snapshot = (fun i => 1500 - Z.of_nat i) <$> seq 0 1000.
Proof.
  intros Hwf. split; [done |]. split; [by apply cache_wf_appendAll |].
  split; [by apply GetRequests_appendAll |]. split; [| split].
  - rewrite length_GetRequests.
    by destruct (cache_wf_appendAll l ps Hwf) as (_ & Hcount & _).
  - intros r. pose proof capacity_pos.
    change (addToCache r ps) with (appendAll [r] ps).
    rewrite (GetRequests_appendAll [r] ps Hwf).
    replace MaxCachedRequests with (S (MaxCachedRequests - 1)) at 1 by lia.
    done.
  - cbv zeta.
    rewrite (GetRequests_appendAll _ _ (cache_wf_new "" None)).
    rewrite (GetRequests_empty (NewProxyServer "" None)) by done.
    vm_compute. done.
Qed.

(** C10: a response that is in scope (and is not a [CONNECT]) replaces, in
    the store, the record that carries its id by the record built from the
    response, whole; that record has an empty request body, whatever body
    the request carried. The same record goes to the response batch, which is
    kept for the timer or handed to the flush callback. *)
Theorem C10_response_record_drops_request_body
    (mapToLower : string -> string)
    (gunzip unbrotli : list byte -> option (list byte)) (now : Z)
    (resp : Http.Response) (ctx : ProxyCtx) (ud : UserData)
    (ps : ProxyServer) :
  ctxUserData ctx = Some ud ->
  cache_wf ps ->
  NoDup (ID <$> GetRequests ps) ->
  shouldSave (config ps) (Http.Host (Req ctx)) = true ->
  Http.Method (Req ctx) <> "CONNECT"%string ->
  let d := (captureResponse mapToLower gunzip unbrotli (Req ctx) resp
              (reqID ud) (startTime ud) now).1 in
  let out :=
    onResponseHandler mapToLower gunzip unbrotli now (Some resp) ctx ps in
  ID d = reqID ud
  /\ Body d = ""%string
  /\ GetRequests (afterResponse out)
     = (fun r => if ID r =? reqID ud then d else r) <$> GetRequests ps
  /\ Forall (fun r => ID r = reqID ud -> Body r = ""%string)
       (GetRequests (afterResponse out))
  /\ (if (BatchSize <=? length (respBatch ps ++ [d]))%nat
      then respBatch (afterResponse out) = []
           /\ responseFlush out
              = (if onBatchFlush ps
                 then Some (reqBatch ps, respBatch ps ++ [d]) else None)
      else respBatch (afterResponse out) = respBatch ps ++ [d]
           /\ responseFlush out = None).
Proof.
  intros Hud Hwf Hnd Hscope Hmethod d out.
  destruct (captureResponse_request_side mapToLower gunzip unbrotli (Req ctx)
              resp (reqID ud) (startTime ud) now)
    as (Hid & Hhost & Hm & _ & _ & Hbody).
  fold d in Hid, Hhost, Hm, Hbody.
  assert (Method d <> "CONNECT"%string) as Hmd by (by rewrite Hm).
  assert (afterResponse out = (emitResponse d ps).1
          /\ responseFlush out = (emitResponse d ps).2) as [Hps Hcall].
  { subst out d. unfold onResponseHandler. rewrite Hud.
    destruct (captureResponse _ _ _ _ _ _ _ _) as [d r'] eqn:E. simpl in *.
    rewrite Hhost, Hscope. by destruct (emitResponse d ps). }
  assert (GetRequests (afterResponse out)
          = (fun r => if ID r =? reqID ud then d else r) <$> GetRequests ps)
    as Hsnap.
  { rewrite Hps, (sameCache_GetRequests _ _ (emitResponse_cache d ps Hmd)).
    rewrite GetRequests_update by done. unfold replaceById. by rewrite Hid. }
  repeat split; try done.
  - rewrite Hsnap. apply Forall_fmap, Forall_forall. intros r _. simpl.
    destruct (Z.eqb_spec (ID r) (reqID ud)); [done | congruence].
  - rewrite Hps, Hcall. apply (emitResponse_batch d ps Hmd).
Qed.

End Store.

(** ** Event bus *)

Section EventBus.
Import Models Proxy Ipc.

Lemma handleBatchFlush_events (requests responses : list RequestDetails)
    (clients : gmap nat (list IPCEvent)) :
  handleBatchFlush requests responses clients
  = offer (batchEvents requests responses) <$> clients.
Proof.
  unfold handleBatchFlush, batchEvents, broadcast, offer.
  destruct (0 <? length requests)%nat, (0 <? length responses)%nat; simpl.
  - by rewrite <- map_fmap_compose.
  - done.
  - done.
  - by rewrite map_fmap_id.
Qed.

Lemma deliver_flush_events (ps : ProxyServer)
    (clients : gmap nat (list IPCEvent)) :
  onBatchFlush ps = true ->
  deliver (flushBatches ps).2 clients
  = offer (batchEvents (reqBatch ps) (respBatch ps)) <$> clients.
Proof.
  intros Hcb. unfold flushBatches, deliver. simpl. rewrite Hcb. simpl.
  destruct (0 <? length (reqBatch ps))%nat eqn:Hreq,
           (0 <? length (respBatch ps))%nat eqn:Hresp; simpl;
    rewrite ?handleBatchFlush_events; unfold batchEvents;
    rewrite ?Hreq, ?Hresp; try done.
  by rewrite map_fmap_id.
Qed.

Lemma offer_room (evs queue : list IPCEvent) :
  (length queue + length evs <= channelCapacity)%nat ->
  offer evs queue = queue ++ evs.
Proof.
  revert queue. induction evs as [|ev evs IH]; intros queue Hroom.
  - by rewrite app_nil_r.
  - cbn [offer foldl]. fold (offer evs (trySend ev queue)).
    cbn [length] in Hroom. unfold trySend at 1.
    destruct (Nat.ltb_spec (length queue) channelCapacity) as [_ | Hfull];
      [| lia].
    rewrite IH by (rewrite length_app; simpl; lia).
    by rewrite <- app_assoc.
Qed.

(** C7: a flush empties both batch buffers and disarms the timer, and with
    the server's callback installed every observer is offered the events of
    [batchEvents]: at most two, the request batch event with the drained
    request batch and the response batch event with the drained response
    batch, an empty batch giving no event. An observer with room for them
    receives exactly these, in this order. *)
Theorem C7_flush_drains_and_emits_at_most_two (s : Server) :
  let ps := proxyServer s in
  let events := batchEvents (reqBatch ps) (respBatch ps) in
  reqBatch (proxyServer (flush s)) = []
  /\ respBatch (proxyServer (flush s)) = []
  /\ batchTimer (proxyServer (flush s)) = false
  /\ (length events <= 2)%nat
  /\ events
     = (if decide (reqBatch ps = []) then []
        else [{| Type_ := "proxy-request-batch";
                 Data := RequestDetailsSlice (reqBatch ps) |}])
       ++ (if decide (respBatch ps = []) then []
           else [{| Type_ := "proxy-response-batch";
                    Data := RequestDetailsSlice (respBatch ps) |}])
  /\ eventClients (flush s)
     = (if onBatchFlush ps then offer events <$> eventClients s
        else eventClients s)
  /\ Forall
       (fun queue =>
          if (length queue + 2 <=? channelCapacity)%nat
          then offer events queue = queue ++ events
          else True)
       (snd <$> map_to_list (eventClients s)).
Proof.
  intros ps events. unfold flush. fold ps.
  destruct (flushBatches ps) as [ps' call] eqn:E.
  assert (ps' = (flushBatches ps).1 /\ call = (flushBatches ps).2) as [-> ->]
    by (by rewrite E).
  assert (length events <= 2)%nat as Hlen.
  { subst events. unfold batchEvents.
    destruct (0 <? _)%nat, (0 <? _)%nat; simpl; lia. }
  repeat split; try done.
  - subst events. unfold batchEvents.
    by destruct (reqBatch ps), (respBatch ps).
  - cbn [eventClients]. destruct (onBatchFlush ps) eqn:Hcb.
    + by apply deliver_flush_events.
    + unfold flushBatches. simpl. by rewrite Hcb.
  - apply Forall_forall. intros queue _.
    destruct (Nat.leb_spec (length queue + 2) channelCapacity); [| done].
    apply offer_room. lia.
Qed.

End EventBus.

(** ** Control plane *)

Section ControlPlane.
Import Models Proxy Ipc.

(** C5, as the code has it: a [POST] to [/api/proxy/start] while the proxy
    runs is answered with [success:false], the error [proxy server already
    running] and status 500, and leaves the running flag, the listener, the
    store, the batches and the observers as they were; the handler has by
    then stored the port of the request in the configuration. *)
Theorem C5_double_start_keeps_all_but_port (bind : option string)
    (r : ApiRequest) (port : Z) (s : Server) :
  apiMethod r = "POST"%string ->
  apiPort r = Some port ->
  isRunning (proxyServer s) = true ->
  handleStart bind r s
  = (withProxy s
       (UpdateConfig (withPort (config (proxyServer s)) port) (proxyServer s)),
     SendError "proxy server already running" 500).
Proof.
  intros Hm Hp Hrun. unfold handleStart, Start. rewrite Hm, Hp. simpl.
  by rewrite Hrun.
Qed.

End ControlPlane.

(** ** Leaf-certificate cache *)

Section LeafCache.
Import Certificate.

Lemma evictLoop_subseteq (half : nat) (order : list string)
    (cache : gmap string TLSCertificate) :
  evictLoop half order cache ⊆ cache.
Proof.
  revert cache. induction order as [|k rest IH]; intros cache; [done |].
  cbn [evictLoop]. destruct (size (delete k cache) <? half)%nat.
  - apply delete_subseteq.
  - etrans; [apply IH | apply delete_subseteq].
Qed.

(** A range over the whole map deletes until fewer than [half] entries are
    left. *)
Lemma evictLoop_size (half : nat) (order : list string)
    (cache : gmap string TLSCertificate) :
  (1 <= half)%nat ->
  NoDup order ->
  (forall k, k ∈ order -> is_Some (cache !! k)) ->
  length order = size cache ->
  (size (evictLoop half order cache) < half)%nat.
Proof.
  intros Hhalf. revert cache.
  induction order as [|k rest IH]; intros cache Hnd Hin Hlen.
  - simpl in *. lia.
  - cbn [evictLoop]. apply NoDup_cons in Hnd as [Hk Hnd].
    assert (size (delete k cache) = length rest) as Hsize.
    { rewrite map_size_delete_Some by (apply Hin; left).
      cbn [length] in Hlen. lia. }
    destruct (Nat.ltb_spec (size (delete k cache)) half) as [Hlt | Hge];
      [done |].
    apply IH; [done | | done].
    intros k' Hk'. rewrite lookup_delete_ne by (by intros ->).
    apply Hin. by right.
Qed.

Lemma range_enumerates (order : list string)
    (cache : gmap string TLSCertificate) :
  order ≡ₚ (map_to_list cache).*1 ->
  NoDup order
  /\ (forall k, k ∈ order -> is_Some (cache !! k))
  /\ length order = size cache.
Proof.
  intros Hperm. split; [| split].
  - rewrite Hperm. apply NoDup_fst_map_to_list.
  - intros k Hk. rewrite Hperm in Hk.
    apply list_elem_of_fmap in Hk as ([k' x] & -> & Hkx).
    apply elem_of_map_to_list in Hkx. by exists x.
  - by rewrite Hperm, length_fmap, length_map_to_list.
Qed.

(** C9: for a manager with the capacity 100 of [NewCertificateManager] and
    an eviction loop that ranges over the cache, every call of
    [GenerateServerCertificate] on a cache of at most 100 entries leaves at
    most 100 entries. When the domain is not cached, a certificate is issued
    and the cache holds 100 entries or more, entries are deleted first, down
    to fewer than 50, and the new certificate is inserted into what is
    kept. *)
Theorem C9_leaf_cache_bounded (order : list string)
    (issued : option TLSCertificate) (domain : string)
    (cm : CertificateManager) :
  cacheMaxSize cm = 100%nat ->
  (size (certCache cm) <= 100)%nat ->
  order ≡ₚ (map_to_list (certCache cm)).*1 ->
  let cm' := (GenerateServerCertificate order issued domain cm).1 in
  cacheMaxSize cm' = 100%nat
  /\ (size (certCache cm') <= 100)%nat
  /\ forall cert,
       certCache cm !! domain = None ->
       issued = Some cert ->
       (100 <= size (certCache cm))%nat ->
       exists kept,
         kept ⊆ certCache cm
         /\ (size kept < 50)%nat
         /\ certCache cm' = <[domain := cert]> kept
         /\ (size (certCache cm') <= 50)%nat.
Proof.
  intros Hmax Hsize Hperm.
  destruct (range_enumerates order (certCache cm) Hperm)
    as (Hnd & Hin & Hlen).
  assert (size (evictLoop 50 order (certCache cm)) < 50)%nat as Hevict
    by (apply evictLoop_size; [lia | done ..]).
  unfold GenerateServerCertificate. rewrite Hmax.
  change (100 / 2)%nat with 50%nat.
  destruct (certCache cm !! domain) as [cached|] eqn:Hcached;
    [by repeat split |].
  destruct issued as [cert|]; [| by repeat split].
  destruct (Nat.leb_spec 100 (size (certCache cm))) as [Hfull | Hroom];
    cbn [fst certCache cacheMaxSize].
  - assert (size (<[domain := cert]> (evictLoop 50 order (certCache cm)))
            <= 50)%nat as Hafter.
    { rewrite map_size_insert.
      destruct (evictLoop 50 order (certCache cm) !! domain); simpl; lia. }
    split; [done |]. split; [lia |].
    intros cert' _ [= <-] _. exists (evictLoop 50 order (certCache cm)).
    split; [apply evictLoop_subseteq | done].
  - split; [done |]. split; [rewrite map_size_insert_None by done; lia |].
    intros cert' _ _ Hfull. lia.
Qed.

End LeafCache.

(** ** The claims on worked inputs *)

Section Checks.
Import Models Proxy.

(** C3 as stated fails: the request with id 1 is in the store; its upstream
    leg fails; the response handler puts no record for it in the response
    batch and calls no callback, so no record with status 0 is emitted; and
    the record the store holds for id 1 afterwards is the one captured at
    request time, with an empty [Error]: no failure category is recorded
    anywhere. *)
Lemma C3_failed_upstream_emits_no_record :
  let out := onResponseHandler asciiOnly noDecoder noDecoder 5 None postedCtx
               (afterRequest posted) in
  reqID (userData posted) = 1
  /\ ID <$> GetRequests (afterRequest posted) = [1]
  /\ (~ exists r,
          (r ∈ respBatch (afterResponse out)
           \/ exists call, responseFlush out = Some call /\ r ∈ call.2)
          /\ ID r = 1 /\ Status r = 0)
  /\ GetRequests (afterResponse out) = GetRequests (afterRequest posted)
  /\ Error <$> GetRequests (afterResponse out) = [""%string]
  /\ ~ exists r,
         (r ∈ GetRequests (afterResponse out)
          \/ r ∈ respBatch (afterResponse out)
          \/ exists call, responseFlush out = Some call /\ r ∈ call.2)
         /\ ID r = 1 /\ Error r <> ""%string.
Proof.
  cbv zeta. rewrite onResponseHandler_no_response.
  cbn [afterResponse responseFlush].
  assert (respBatch (afterRequest posted) = []) as Hbatch by (by vm_compute).
  assert (Error <$> GetRequests (afterRequest posted) = [""%string]) as Herr
    by (by vm_compute).
  rewrite Hbatch.
  split; [by vm_compute |]. split; [by vm_compute |].
  split; [| split; [done | split; [done |]]].
  - intros (r & [Hin | (call & Hcall & _)] & _); [| done].
    by apply elem_of_nil in Hin.
  - intros (r & [Hin | [Hin | (call & Hcall & _)]] & _ & Hne); [| | done].
    + apply (list_elem_of_fmap_2 Error) in Hin. rewrite Herr in Hin.
      apply list_elem_of_singleton in Hin. done.
    + by apply elem_of_nil in Hin.
Qed.

(** C4 as stated fails: the body of the image has four bytes and the record
    has [ResponseLength] 0. *)
Lemma C4_image_length_is_zero :
  let out := captureResponse asciiOnly noDecoder noDecoder plainRequest
               pngResponse 1 0 5 in
  (Http.content <$> Http.RespBody pngResponse)
  = Some [x89; x50; x4e; x47]%byte
  /\ ResponseLength out.1 = 0
  /\ ResponseLength out.1 <> 4
  /\ out.2 = pngResponse.
Proof. by vm_compute. Qed.

Lemma C4_witness :
  shouldCaptureBody asciiOnly
    (Http.Get (Http.RespHeader pngResponse) "Content-Type")
  = false
  /\ let out := captureResponse asciiOnly noDecoder noDecoder plainRequest
                  pngResponse 1 0 5 in
     out.2 = pngResponse
     /\ ResponseBody out.1 = ""%string
     /\ ResponseLength out.1 = 0.
Proof.
  split; [reflexivity |].
  apply (C4_non_textual_not_read asciiOnly noDecoder noDecoder plainRequest
           pngResponse 1 0 5).
  reflexivity.
Defined.

Lemma C8_witness :
  let out := captureResponse asciiOnly sampleGunzip noDecoder plainRequest
               gzipResponse 1 0 5 in
  length compressedBytes = 26%nat
  /\ ResponseLength out.1 = 26
  /\ ResponseBody out.1 = string_of_list_byte jsonBytes
  /\ Http.RespBody out.2 = Some (Http.bufferOf compressedBytes).
Proof.
  split; [reflexivity |].
  apply (C8_gzip_length_before_decompression asciiOnly sampleGunzip noDecoder
           plainRequest gzipResponse 1 0 5 (Http.bufferOf compressedBytes)
           jsonBytes);
    first [reflexivity | by vm_compute].
Defined.

End Checks.

Section StoreChecks.
Import Models Proxy Ipc Certificate.

Lemma C6_witness :
  cache_wf fullStore
  /\ GetRequests (appendAll (exchanges 1001 500) fullStore)
     = take MaxCachedRequests
         (reverse (exchanges 1001 500) ++ GetRequests fullStore)
  /\ (forall r,
        GetRequests (addToCache r fullStore)
        = r :: take (MaxCachedRequests - 1) (GetRequests fullStore)).
Proof.
  assert (cache_wf fullStore) as Hwf
    by (unfold cache_wf; vm_compute; repeat split; lia).
  split; [exact Hwf |].
  pose proof (C6_ring_eviction_newest_first fullStore (exchanges 1001 500) Hwf)
    as (_ & _ & Hsnap & _ & Hone & _).
  split; [exact Hsnap | exact Hone].
Defined.

Lemma C10_witness :
  let d := (captureResponse asciiOnly noDecoder noDecoder (Req postedCtx)
              textResponse 1 0 5).1 in
  let out := onResponseHandler asciiOnly noDecoder noDecoder 5
               (Some textResponse) postedCtx (afterRequest posted) in
  Body <$> GetRequests (afterRequest posted) = ["user=a"%string]
  /\ GetRequests (afterResponse out) = [d]
  /\ Body <$> GetRequests (afterResponse out) = [""%string]
  /\ respBatch (afterResponse out) = [d].
Proof.
  cbv zeta.
  pose proof (C10_response_record_drops_request_body asciiOnly noDecoder
                noDecoder 5 textResponse postedCtx (userData posted)
                (afterRequest posted))
    as H.
  destruct H as (_ & Hbody & Hsnap & _ & Hbatch).
  - reflexivity.
  - unfold cache_wf; vm_compute; repeat split; lia.
  - vm_compute. apply NoDup_cons. split; [by_evaluation | apply NoDup_nil_2].
  - by vm_compute.
  - by vm_compute.
  - split; [by vm_compute |]. split; [| split].
    + rewrite Hsnap. by vm_compute.
    + rewrite Hsnap. by vm_compute.
    + by vm_compute.
Defined.

(** C5 as stated fails: the second start is refused, and the status read
    back afterwards reports port 9999 where it reported 8080 before, while
    the listener is still the one bound to 8080. *)
Lemma C5_refused_start_changes_port :
  let out := handleStart None secondStart startedServer in
  out.2 = SendError "proxy server already running" 500
  /\ handleStatus {| apiMethod := "GET"; apiPort := None |} startedServer
     = SendSuccess {| IsRunning := true; StatusPort := 8080;
                      CertificatePath := "" |}
  /\ handleStatus {| apiMethod := "GET"; apiPort := None |} out.1
     = SendSuccess {| IsRunning := true; StatusPort := 9999;
                      CertificatePath := "" |}
  /\ listener (proxyServer out.1) = Some 8080
  /\ Port (config (proxyServer out.1)) <> Port (config (proxyServer startedServer)).
Proof. by vm_compute. Qed.

Lemma C5_witness :
  isRunning (proxyServer startedServer) = true
  /\ handleStart None secondStart startedServer
     = (withProxy startedServer
          (UpdateConfig (withPort (config (proxyServer startedServer)) 9999)
             (proxyServer startedServer)),
        SendError "proxy server already running" 500).
Proof.
  split; [reflexivity |].
  apply (C5_double_start_keeps_all_but_port None secondStart 9999
           startedServer); reflexivity.
Defined.

Lemma C9_witness :
  let cm' := (GenerateServerCertificate fullOrder (Some (sampleCert 100))
                "new.test" fullManager).1 in
  size (certCache fullManager) = 100%nat
  /\ (size (certCache cm') <= 100)%nat
  /\ size (certCache cm') = 50%nat
  /\ certCache cm' !! "new.test"%string = Some (sampleCert 100).
Proof.
  cbv zeta.
  pose proof (C9_leaf_cache_bounded fullOrder (Some (sampleCert 100))
                "new.test" fullManager) as H.
  destruct H as (_ & Hbound & _).
  - reflexivity.
  - vm_compute. lia.
  - reflexivity.
  - split; [by vm_compute |]. split; [exact Hbound |].
    split; by vm_compute.
Defined.

End StoreChecks.
